(** * The job-application front end: generator flow and dashboard

    A shallow embedding of the stateful pages of the front end:
    [GeneratorPage] (the four-step generation flow), [DashboardPage]
    (list, preview, download and delete of saved applications) and
    [LandingPage] with the [AuthModal] it renders.

    Every [async] handler of the source is cut at its single [await]:
    the part before it runs when the user triggers the handler and reads
    the component state of the render that created the handler; the part
    after it runs when the backend answers, still reading that captured
    state, while its state setters act on the state of that later moment.
    Both parts are written as the list of the source's statements, in
    order, and run by an interpreter over the page.

    A page is the component state together with the suspended handlers,
    the running progress timers and the log of what was sent, received
    and shown.  Its events are the user's actions on the controls the
    current render offers, the ticks of the timers and the answers of
    the backend, in any order.  Two things are left out: the log-out
    button, whose handler belongs to the authentication context, and the
    exit animations, during which a control of the previous step is
    still on screen. *)

From Stdlib Require Import ZArith List String Ascii Bool Lia.
Import ListNotations.
Local Open Scope string_scope.
Local Open Scope list_scope.
Local Open Scope Z_scope.

(** ** JavaScript values *)

Module JS.

(** Scalars.  Numbers are kept as integers: the code only tests them for
    truthiness and strict equality. *)
Inductive prim : Type :=
| PUndefined
| PNull
| PBool (b : bool)
| PNum (n : Z)
| PStr (s : string).

#[local] Set Warnings "-register-all".

(** Values as they come out of a parsed response body. *)
Inductive value : Type :=
| VPrim (p : prim)
| VArr (items : list value)
| VObj (fields : list (string * value)).

Definition undefined : value := VPrim PUndefined.
Definition null : value := VPrim PNull.
Definition str (s : string) : value := VPrim (PStr s).

Definition prim_eq_dec (p q : prim) : {p = q} + {p <> q}.
Proof.
  decide equality; [apply Bool.bool_dec | apply Z.eq_dec | apply string_dec].
Defined.

(** [a === b] on scalars. *)
Definition strict_eq (p q : prim) : bool :=
  if prim_eq_dec p q then true else false.

(** [!!p] *)
Definition truthy_prim (p : prim) : bool :=
  match p with
  | PUndefined | PNull => false
  | PBool b => b
  | PNum n => negb (Z.eqb n 0)
  | PStr s => negb (String.eqb s "")
  end.

(** [!!v]: every object and array is truthy. *)
Definition truthy (v : value) : bool :=
  match v with
  | VPrim p => truthy_prim p
  | VArr _ | VObj _ => true
  end.

(** [a || b] *)
Definition or_else (a b : value) : value := if truthy a then a else b.

Fixpoint lookup (k : string) (fields : list (string * value)) : value :=
  match fields with
  | [] => undefined
  | (k', v) :: rest => if String.eqb k k' then v else lookup k rest
  end.

(** [v.k] for one of the property names the pages read ([detail],
    [cover_letter], [company_name], [job_title]): [None] is the TypeError
    of reading a property of [null] or [undefined]; scalars and arrays
    have no such property. *)
Definition prop (v : value) (k : string) : option value :=
  match v with
  | VPrim PUndefined | VPrim PNull => None
  | VPrim _ | VArr _ => Some undefined
  | VObj fields => Some (lookup k fields)
  end.

(** [v?.k] *)
Definition opt_prop (v : value) (k : string) : value :=
  match prop v k with
  | Some x => x
  | None => undefined
  end.

(** [String.prototype.toLowerCase], on the ASCII letters. *)
Definition lower_ascii (c : ascii) : ascii :=
  let n := nat_of_ascii c in
  if (andb (Nat.leb 65 n) (Nat.leb n 90)) then ascii_of_nat (n + 32) else c.

Fixpoint toLowerCase (s : string) : string :=
  match s with
  | EmptyString => EmptyString
  | String c rest => String (lower_ascii c) (toLowerCase rest)
  end.

(** [s.endsWith(suffix)]: some tail of [s] is [suffix]. *)
Fixpoint endsWith (s suffix : string) : bool :=
  if String.eqb s suffix then true
  else
    match s with
    | EmptyString => false
    | String _ rest => endsWith rest suffix
    end.

End JS.
Import JS.

(** ** What goes over the wire and what the user sees *)

Module Api.

(** A [File] picked in the upload zone. *)
Record File : Type := mkFile { name : string; content : string }.

(** The six-field body shared by [POST /generate-pdf] and
    [POST /applications]. *)
Record Body : Type := mkBody {
  job_url : value;
  job_analysis : value;
  resume_data : value;
  cover_letter : value;
  company_name : value;
  job_title : value
}.

Inductive Request : Type :=
| PostAnalyzeJob (url : string)
| PostAnalyzeResume (file : File)
| PostGenerateCoverLetter (job_analysis resume_data : value)
| PostGeneratePdf (body : Body)
| PostApplications (body : Body)
| GetApplications
| DeleteApplicationById (id : prim).

(** Observable effects, newest first in a page's log.  [R] is the type of
    what the backend answers.  [SaveAs part blob] is the save-as dialog
    for the file named [Bewerbung_<part>.pdf]. *)
Inductive Effect (R : Type) : Type :=
| Sent (r : Request)
| Received (r : Request) (answer : R)
| ToastError (message : value)
| ToastSuccess (message : value)
| Navigated (path : string)
| SaveAs (part blob : value).

(** Suspended handlers and timers are kept under the number of the call
    they belong to. *)
Fixpoint assoc {A : Type} (id : nat) (l : list (nat * A)) : option A :=
  match l with
  | [] => None
  | (i, a) :: rest => if Nat.eqb id i then Some a else assoc id rest
  end.

Fixpoint drop {A : Type} (id : nat) (l : list (nat * A)) : list (nat * A) :=
  match l with
  | [] => []
  | (i, a) :: rest =>
      if Nat.eqb id i then drop id rest else (i, a) :: drop id rest
  end.

Arguments Sent {R} r.
Arguments Received {R} r answer.
Arguments ToastError {R} message.
Arguments ToastSuccess {R} message.
Arguments Navigated {R} path.
Arguments SaveAs {R} part blob.

End Api.
Import Api.

(** ** GeneratorPage *)

Module Generator.

(** The [useState] cells of the component. *)
Record State : Type := mkState {
  currentStep : Z;
  loading : bool;
  progress : Z;
  progressText : string;
  jobUrl : string;
  jobAnalysis : value;
  resumeFile : option File;
  resumeData : value;
  coverLetter : value
}.

Definition initial : State :=
  {| currentStep := 1; loading := false; progress := 0; progressText := "";
     jobUrl := ""; jobAnalysis := null; resumeFile := None;
     resumeData := null; coverLetter := str "" |}.

(** How an [axios] promise settles: fulfilled with [response.data], or
    rejected with [error.response?.data] ([undefined] when there was no
    response at all). *)
Inductive Outcome : Type :=
| Resolved (data : value)
| Rejected (body : value).

Inductive Handler : Type :=
| AnalyzeJob
| HandleFileUpload
| GenerateCoverLetter
| DownloadPdf
| SaveApplication.

(** A handler suspended at its [await]: the state its closure captured
    and the request it is waiting for. *)
Record Suspended : Type := mkSuspended {
  handler : Handler;
  closure : State;
  request : Request
}.

(** The statements the handlers are made of. *)
Inductive Stmt : Type :=
| setCurrentStep (n : Z)
| setLoading (b : bool)
| setProgress (n : Z)
| updProgress (f : Z -> Z)
| setProgressText (s : string)
| setJobUrl (s : string)
| setJobAnalysis (v : value)
| setResumeFile (f : option File)
| setResumeData (v : value)
| setCoverLetter (v : value)
| setInterval (id : nat) (inc : Z)
| clearInterval (id : nat)
| await_post (id : nat) (k : Suspended)
| toast_error (m : value)
| toast_success (m : value)
| navigate (path : string)
| save_as (part blob : value).

(** *** The handlers, statement by statement *)

Definition analyzeJob (id : nat) (s : State) : list Stmt :=
  if String.eqb (jobUrl s) "" then
    [toast_error (str "Bitte geben Sie eine URL ein")]
  else
    [setLoading true;
     setProgress 0;
     setProgressText "Analysiere Stellenausschreibung...";
     setInterval id 10;
     await_post id (mkSuspended AnalyzeJob s (PostAnalyzeJob (jobUrl s)))].

Definition analyzeJob_settled (id : nat) (s : State) (o : Outcome)
  : list Stmt :=
  match o with
  | Resolved data =>
      [clearInterval id;
       setProgress 100;
       setJobAnalysis data;
       toast_success (str "Stellenausschreibung analysiert!");
       setCurrentStep 2]
  | Rejected body =>
      [toast_error (or_else (opt_prop body "detail")
                            (str "Fehler bei der Analyse"))]
  end ++ [setLoading false; setProgress 0].

(** [handleFileUpload] is memoised with no dependencies: its closure is
    the one of the first render. *)
Definition handleFileUpload (id : nat) (files : list File) : list Stmt :=
  match files with
  | [] => []
  | file :: _ =>
      if negb (endsWith (toLowerCase (name file)) ".pdf") then
        [toast_error (str "Nur PDF-Dateien werden akzeptiert")]
      else
        [setResumeFile (Some file);
         setLoading true;
         setProgressText "Analysiere Lebenslauf...";
         setProgress 0;
         setInterval id 10;
         await_post id
           (mkSuspended HandleFileUpload initial (PostAnalyzeResume file))]
  end.

Definition handleFileUpload_settled (id : nat) (o : Outcome) : list Stmt :=
  match o with
  | Resolved data =>
      [clearInterval id;
       setProgress 100;
       setResumeData data;
       toast_success (str "Lebenslauf analysiert!")]
  | Rejected body =>
      [toast_error (or_else (opt_prop body "detail")
                            (str "Fehler bei der PDF-Analyse"));
       setResumeFile None]
  end ++ [setLoading false; setProgress 0].

Definition generateCoverLetter (id : nat) (s : State) : list Stmt :=
  [setLoading true;
   setCurrentStep 3;
   setProgress 0;
   setProgressText "Erstelle Bewerbungsanschreiben...";
   setInterval id 5;
   await_post id
     (mkSuspended GenerateCoverLetter s
        (PostGenerateCoverLetter (jobAnalysis s) (resumeData s)))].

(** The [catch] block of [generateCoverLetter]; [body] is
    [error.response?.data]. *)
Definition generateCoverLetter_catch (body : value) : list Stmt :=
  [toast_error (or_else (opt_prop body "detail")
                        (str "Fehler bei der Generierung"));
   setCurrentStep 2].

(** [response.data.cover_letter] throws when [response.data] is [null] or
    [undefined]; the TypeError has no [response]. *)
Definition generateCoverLetter_settled (id : nat) (s : State) (o : Outcome)
  : list Stmt :=
  match o with
  | Resolved data =>
      [clearInterval id; setProgress 100] ++
      match prop data "cover_letter" with
      | Some text =>
          [setCoverLetter text;
           toast_success (str "Anschreiben erstellt!");
           setCurrentStep 4]
      | None => generateCoverLetter_catch undefined
      end
  | Rejected body => generateCoverLetter_catch body
  end ++ [setLoading false; setProgress 0].

(** The request body built by [downloadPdf] and [saveApplication]. *)
Definition body_of (s : State) : Body :=
  {| job_url := str (jobUrl s);
     job_analysis := jobAnalysis s;
     resume_data := resumeData s;
     cover_letter := coverLetter s;
     company_name := opt_prop (jobAnalysis s) "company_name";
     job_title := opt_prop (jobAnalysis s) "job_title" |}.

Definition downloadPdf (id : nat) (s : State) : list Stmt :=
  [setLoading true;
   setProgressText "Erstelle PDF...";
   await_post id (mkSuspended DownloadPdf s (PostGeneratePdf (body_of s)))].

Definition downloadPdf_settled (s : State) (o : Outcome) : list Stmt :=
  match o with
  | Resolved data =>
      [save_as (or_else (opt_prop (jobAnalysis s) "company_name")
                        (str "Dokument")) data;
       toast_success (str "PDF heruntergeladen!")]
  | Rejected _ => [toast_error (str "Fehler beim PDF-Download")]
  end ++ [setLoading false].

Definition saveApplication (id : nat) (s : State) : list Stmt :=
  [setLoading true;
   await_post id
     (mkSuspended SaveApplication s (PostApplications (body_of s)))].

Definition saveApplication_settled (o : Outcome) : list Stmt :=
  match o with
  | Resolved _ =>
      [toast_success (str "Bewerbung gespeichert!"); navigate "/dashboard"]
  | Rejected _ => [toast_error (str "Fehler beim Speichern")]
  end ++ [setLoading false].

(** The rest of a suspended handler, once its promise has settled. *)
Definition settled (id : nat) (k : Suspended) (o : Outcome) : list Stmt :=
  match handler k with
  | AnalyzeJob => analyzeJob_settled id (closure k) o
  | HandleFileUpload => handleFileUpload_settled id o
  | GenerateCoverLetter => generateCoverLetter_settled id (closure k) o
  | DownloadPdf => downloadPdf_settled (closure k) o
  | SaveApplication => saveApplication_settled o
  end.

(** *** What is rendered *)

(** [disabled] attributes of the four gated buttons. *)
Definition analyze_disabled (s : State) : bool :=
  loading s || String.eqb (jobUrl s) "".
Definition generate_disabled (s : State) : bool :=
  loading s || negb (truthy (resumeData s)).
Definition save_disabled (s : State) : bool := loading s.
Definition download_disabled (s : State) : bool := loading s.

(** *** The page: component state, suspended handlers, timers, effects *)

Record Page : Type := mkPage {
  state : State;
  mounted : bool;
  pending : list (nat * Suspended);
  intervals : list (nat * Z);
  log : list (Effect Outcome);
  fresh : nat
}.

Definition start : Page :=
  {| state := initial; mounted := true; pending := []; intervals := [];
     log := []; fresh := 0 |}.

(** A state setter acts on a mounted component only. *)
Definition set_state (f : State -> State) (p : Page) : Page :=
  if mounted p then
    {| state := f (state p); mounted := mounted p; pending := pending p;
       intervals := intervals p; log := log p; fresh := fresh p |}
  else p.

Definition emit (e : Effect Outcome) (p : Page) : Page :=
  {| state := state p; mounted := mounted p; pending := pending p;
     intervals := intervals p; log := e :: log p; fresh := fresh p |}.

Definition exec1 (c : Stmt) (p : Page) : Page :=
  match c with
  | setCurrentStep n =>
      set_state (fun s =>
        mkState n (loading s) (progress s) (progressText s) (jobUrl s)
          (jobAnalysis s) (resumeFile s) (resumeData s) (coverLetter s)) p
  | setLoading b =>
      set_state (fun s =>
        mkState (currentStep s) b (progress s) (progressText s) (jobUrl s)
          (jobAnalysis s) (resumeFile s) (resumeData s) (coverLetter s)) p
  | setProgress n =>
      set_state (fun s =>
        mkState (currentStep s) (loading s) n (progressText s) (jobUrl s)
          (jobAnalysis s) (resumeFile s) (resumeData s) (coverLetter s)) p
  | updProgress f =>
      set_state (fun s =>
        mkState (currentStep s) (loading s) (f (progress s)) (progressText s)
          (jobUrl s) (jobAnalysis s) (resumeFile s) (resumeData s)
          (coverLetter s)) p
  | setProgressText t =>
      set_state (fun s =>
        mkState (currentStep s) (loading s) (progress s) t (jobUrl s)
          (jobAnalysis s) (resumeFile s) (resumeData s) (coverLetter s)) p
  | setJobUrl u =>
      set_state (fun s =>
        mkState (currentStep s) (loading s) (progress s) (progressText s) u
          (jobAnalysis s) (resumeFile s) (resumeData s) (coverLetter s)) p
  | setJobAnalysis v =>
      set_state (fun s =>
        mkState (currentStep s) (loading s) (progress s) (progressText s)
          (jobUrl s) v (resumeFile s) (resumeData s) (coverLetter s)) p
  | setResumeFile f =>
      set_state (fun s =>
        mkState (currentStep s) (loading s) (progress s) (progressText s)
          (jobUrl s) (jobAnalysis s) f (resumeData s) (coverLetter s)) p
  | setResumeData v =>
      set_state (fun s =>
        mkState (currentStep s) (loading s) (progress s) (progressText s)
          (jobUrl s) (jobAnalysis s) (resumeFile s) v (coverLetter s)) p
  | setCoverLetter v =>
      set_state (fun s =>
        mkState (currentStep s) (loading s) (progress s) (progressText s)
          (jobUrl s) (jobAnalysis s) (resumeFile s) (resumeData s) v) p
  | setInterval id inc =>
      {| state := state p; mounted := mounted p; pending := pending p;
         intervals := (id, inc) :: intervals p; log := log p;
         fresh := fresh p |}
  | clearInterval id =>
      {| state := state p; mounted := mounted p; pending := pending p;
         intervals := drop id (intervals p); log := log p;
         fresh := fresh p |}
  | await_post id k =>
      {| state := state p; mounted := mounted p;
         pending := (id, k) :: pending p; intervals := intervals p;
         log := Sent (request k) :: log p; fresh := fresh p |}
  | toast_error m => emit (ToastError m) p
  | toast_success m => emit (ToastSuccess m) p
  | navigate path =>
      (* the router replaces the page: the component is unmounted *)
      {| state := state p; mounted := false; pending := pending p;
         intervals := intervals p; log := Navigated path :: log p;
         fresh := fresh p |}
  | save_as part blob => emit (SaveAs part blob) p
  end.

Definition exec (body : list Stmt) (p : Page) : Page :=
  fold_left (fun q c => exec1 c q) body p.

(** *** Events *)

Inductive Event : Type :=
| ChangeJobUrl (text : string)       (* job-url-input *)
| ClickAnalyze                       (* analyze-job-btn *)
| ChooseFiles (files : list File)    (* resume-upload-input, or a drop *)
| ClickBack                          (* back-btn *)
| ClickGenerate                      (* generate-btn *)
| ClickEdit                          (* edit-btn *)
| ClickSave                          (* save-btn *)
| ClickDownload                      (* download-btn *)
| ClickLogo                          (* logo-btn *)
| ClickDashboard                     (* dashboard-btn *)
| Tick (id : nat)                    (* a progress timer fires *)
| Settle (id : nat) (o : Outcome).   (* the backend answers *)

(** Whether the render of [s] offers the control behind a user event. *)
Definition offered (s : State) (e : Event) : bool :=
  match e with
  | ChangeJobUrl _ => currentStep s =? 1
  | ClickAnalyze => (currentStep s =? 1) && negb (analyze_disabled s)
  | ChooseFiles _ => currentStep s =? 2
  | ClickBack => currentStep s =? 2
  | ClickGenerate => (currentStep s =? 2) && negb (generate_disabled s)
  | ClickEdit => currentStep s =? 4
  | ClickSave => (currentStep s =? 4) && negb (save_disabled s)
  | ClickDownload => (currentStep s =? 4) && negb (download_disabled s)
  | ClickLogo | ClickDashboard => true
  | Tick _ | Settle _ _ => false
  end.

(** The handler bound to each control. *)
Definition on_event (id : nat) (s : State) (e : Event) : list Stmt :=
  match e with
  | ChangeJobUrl text => [setJobUrl text]
  | ClickAnalyze => analyzeJob id s
  | ChooseFiles files => handleFileUpload id files
  | ClickBack => [setCurrentStep 1]
  | ClickGenerate => generateCoverLetter id s
  | ClickEdit => [setCurrentStep 2]
  | ClickSave => saveApplication id s
  | ClickDownload => downloadPdf id s
  | ClickLogo => [navigate "/"]
  | ClickDashboard => [navigate "/dashboard"]
  | Tick _ | Settle _ _ => []
  end.

Definition next_id (p : Page) : Page :=
  {| state := state p; mounted := mounted p; pending := pending p;
     intervals := intervals p; log := log p; fresh := S (fresh p) |}.

Definition take (id : nat) (k : Suspended) (o : Outcome) (p : Page) : Page :=
  {| state := state p; mounted := mounted p; pending := drop id (pending p);
     intervals := intervals p; log := Received (request k) o :: log p;
     fresh := fresh p |}.

(** One event of the page's life; [None] when the event cannot happen. *)
Definition react (p : Page) (e : Event) : option Page :=
  match e with
  | Tick id =>
      match assoc id (intervals p) with
      | Some inc => Some (exec [updProgress (fun x => Z.min (x + inc) 90)] p)
      | None => None
      end
  | Settle id o =>
      match assoc id (pending p) with
      | Some k => Some (exec (settled id k o) (take id k o p))
      | None => None
      end
  | _ =>
      if mounted p && offered (state p) e then
        Some (exec (on_event (fresh p) (state p) e) (next_id p))
      else None
  end.

Fixpoint run (p : Page) (es : list Event) : option Page :=
  match es with
  | [] => Some p
  | e :: rest =>
      match react p e with
      | Some q => run q rest
      | None => None
      end
  end.

Definition reachable (p : Page) : Prop := exists es, run start es = Some p.

End Generator.

(** ** DashboardPage *)

Module Dashboard.

(** An Application Record as listed by [GET /applications].  The
    identifier is a scalar (a string or a number). *)
Record Application : Type := mkApplication {
  id : prim;
  job_url : value;
  job_analysis : value;
  resume_data : value;
  cover_letter : value;
  company_name : value;
  job_title : value;
  created_at : value
}.

Record State : Type := mkState {
  applications : list Application;
  loading : bool;
  deleteId : prim;
  selectedApp : option Application
}.

Definition initial : State :=
  {| applications := []; loading := true; deleteId := PNull;
     selectedApp := None |}.

(** How a promise settles: fulfilled with the list of records (the list
    call), fulfilled with any other payload, or rejected with
    [error.response?.data]. *)
Inductive Outcome : Type :=
| ResolvedList (data : list Application)
| Resolved (data : value)
| Rejected (body : value).

Inductive Handler : Type :=
| FetchApplications
| DeleteApplication
| DownloadPdf (app : Application).

Record Suspended : Type := mkSuspended {
  handler : Handler;
  closure : State;
  request : Request
}.

Inductive Stmt : Type :=
| setApplications (l : list Application)
| setLoading (b : bool)
| setDeleteId (i : prim)
| setSelectedApp (a : option Application)
| await_axios (id : nat) (k : Suspended)
| toast_error (m : value)
| toast_success (m : value)
| navigate (path : string)
| save_as (part blob : value).

(** *** The handlers *)

Definition fetchApplications (id : nat) (s : State) : list Stmt :=
  [await_axios id (mkSuspended FetchApplications s GetApplications)].

(** [None]: the answer is not a list of records, which the page does not
    survive (it maps over [applications]). *)
Definition fetchApplications_settled (o : Outcome) : option (list Stmt) :=
  match o with
  | ResolvedList data => Some ([setApplications data] ++ [setLoading false])
  | Resolved _ => None
  | Rejected _ =>
      Some ([toast_error (str "Fehler beim Laden der Bewerbungen")]
            ++ [setLoading false])
  end.

Definition deleteApplication (id : nat) (s : State) : list Stmt :=
  if negb (truthy_prim (deleteId s)) then []
  else
    [await_axios id
       (mkSuspended DeleteApplication s
          (DeleteApplicationById (deleteId s)))].

Definition deleteApplication_settled (s : State) (o : Outcome) : list Stmt :=
  match o with
  | ResolvedList _ | Resolved _ =>
      [setApplications
         (filter (fun app => negb (strict_eq (id app) (deleteId s)))
                 (applications s));
       toast_success (str "Bewerbung gelöscht")]
  | Rejected _ => [toast_error (str "Fehler beim Löschen")]
  end ++ [setDeleteId PNull].

(** The body [downloadPdf] builds from a listed record. *)
Definition body_of (app : Application) : Body :=
  {| Api.job_url := job_url app;
     Api.job_analysis := VObj [];
     Api.resume_data := VObj [];
     Api.cover_letter := cover_letter app;
     Api.company_name := company_name app;
     Api.job_title := job_title app |}.

Definition downloadPdf (id : nat) (s : State) (app : Application)
  : list Stmt :=
  [await_axios id
     (mkSuspended (DownloadPdf app) s (PostGeneratePdf (body_of app)))].

Definition downloadPdf_settled (app : Application) (o : Outcome)
  : option (list Stmt) :=
  match o with
  | Resolved data =>
      Some [save_as (or_else (company_name app) (str "Dokument")) data;
            toast_success (str "PDF heruntergeladen!")]
  | ResolvedList _ => None
  | Rejected _ => Some [toast_error (str "Fehler beim PDF-Download")]
  end.

Definition settled (k : Suspended) (o : Outcome) : option (list Stmt) :=
  match handler k with
  | FetchApplications => fetchApplications_settled o
  | DeleteApplication => Some (deleteApplication_settled (closure k) o)
  | DownloadPdf app => downloadPdf_settled app o
  end.

(** *** The page *)

Record Page : Type := mkPage {
  state : State;
  mounted : bool;
  pending : list (nat * Suspended);
  log : list (Effect Outcome);
  fresh : nat
}.

Definition set_state (f : State -> State) (p : Page) : Page :=
  if mounted p then
    {| state := f (state p); mounted := mounted p; pending := pending p;
       log := log p; fresh := fresh p |}
  else p.

Definition emit (e : Effect Outcome) (p : Page) : Page :=
  {| state := state p; mounted := mounted p; pending := pending p;
     log := e :: log p; fresh := fresh p |}.

Definition exec1 (c : Stmt) (p : Page) : Page :=
  match c with
  | setApplications l =>
      set_state (fun s => mkState l (loading s) (deleteId s) (selectedApp s)) p
  | setLoading b =>
      set_state (fun s =>
        mkState (applications s) b (deleteId s) (selectedApp s)) p
  | setDeleteId i =>
      set_state (fun s =>
        mkState (applications s) (loading s) i (selectedApp s)) p
  | setSelectedApp a =>
      set_state (fun s => mkState (applications s) (loading s) (deleteId s) a) p
  | await_axios id k =>
      {| state := state p; mounted := mounted p;
         pending := (id, k) :: pending p;
         log := Sent (request k) :: log p; fresh := fresh p |}
  | toast_error m => emit (ToastError m) p
  | toast_success m => emit (ToastSuccess m) p
  | navigate path =>
      {| state := state p; mounted := false; pending := pending p;
         log := Navigated path :: log p; fresh := fresh p |}
  | save_as part blob => emit (SaveAs part blob) p
  end.

Definition exec (body : list Stmt) (p : Page) : Page :=
  fold_left (fun q c => exec1 c q) body p.

(** The page right after mounting: the effect hook has issued the list
    call, numbered 0. *)
Definition start : Page :=
  exec (fetchApplications 0 initial)
    {| state := initial; mounted := true; pending := []; log := [];
       fresh := 1 |}.

(** *** Events.  Cards are addressed by their position in the grid. *)

Inductive Event : Type :=
| ClickView (index : nat)            (* view-btn-<index> *)
| ClickCardDownload (index : nat)    (* download-btn-<index> *)
| ClickTrash (index : nat)           (* delete-btn-<index> *)
| DialogOpenChange                   (* the delete dialog closes *)
| ClickConfirmDelete                 (* confirm-delete-btn *)
| ClosePreview                       (* backdrop, close buttons *)
| ClickModalDownload                 (* download-modal-btn *)
| ClickLogo                          (* logo-btn *)
| ClickNewApplication                (* new-application-btn *)
| ClickCreateFirst                   (* create-first-btn *)
| Settle (id : nat) (o : Outcome).

Definition dialog_open (s : State) : bool := truthy_prim (deleteId s).

Definition preview_open (s : State) : bool :=
  match selectedApp s with Some _ => true | None => false end.

(** The grid is shown once loading is over; the dialog and the preview
    lie over it. *)
Definition grid_shown (s : State) : bool :=
  negb (loading s) && negb (dialog_open s) && negb (preview_open s).

(** The statements a user event runs, [None] when the render of [s]
    does not offer the control. *)
Definition on_event (id : nat) (s : State) (e : Event)
  : option (list Stmt) :=
  match e with
  | ClickView i =>
      match nth_error (applications s) i with
      | Some app =>
          if grid_shown s then Some [setSelectedApp (Some app)] else None
      | None => None
      end
  | ClickCardDownload i =>
      match nth_error (applications s) i with
      | Some app => if grid_shown s then Some (downloadPdf id s app) else None
      | None => None
      end
  | ClickTrash i =>
      match nth_error (applications s) i with
      | Some app =>
          if grid_shown s then Some [setDeleteId (Dashboard.id app)] else None
      | None => None
      end
  | DialogOpenChange =>
      if dialog_open s then Some [setDeleteId PNull] else None
  | ClickConfirmDelete =>
      if dialog_open s then Some (deleteApplication id s) else None
  | ClosePreview =>
      if preview_open s then Some [setSelectedApp None] else None
  | ClickModalDownload =>
      match selectedApp s with
      | Some app => Some (downloadPdf id s app)
      | None => None
      end
  | ClickLogo => Some [navigate "/"]
  | ClickNewApplication => Some [navigate "/generator"]
  | ClickCreateFirst =>
      match applications s with
      | [] => if loading s then None else Some [navigate "/generator"]
      | _ :: _ => None
      end
  | Settle _ _ => None
  end.

Definition next_id (p : Page) : Page :=
  {| state := state p; mounted := mounted p; pending := pending p;
     log := log p; fresh := S (fresh p) |}.

Definition take (id : nat) (k : Suspended) (o : Outcome) (p : Page) : Page :=
  {| state := state p; mounted := mounted p; pending := drop id (pending p);
     log := Received (request k) o :: log p; fresh := fresh p |}.

Definition react (p : Page) (e : Event) : option Page :=
  match e with
  | Settle id o =>
      match assoc id (pending p) with
      | Some k =>
          match settled k o with
          | Some body => Some (exec body (take id k o p))
          | None => None
          end
      | None => None
      end
  | _ =>
      if mounted p then
        match on_event (fresh p) (state p) e with
        | Some body => Some (exec body (next_id p))
        | None => None
        end
      else None
  end.

Fixpoint run (p : Page) (es : list Event) : option Page :=
  match es with
  | [] => Some p
  | e :: rest =>
      match react p e with
      | Some q => run q rest
      | None => None
      end
  end.

Definition reachable (p : Page) : Prop := exists es, run start es = Some p.

End Dashboard.

(** ** The properties under study *)

(** A file name that ends in [.pdf], whatever the case of the letters. *)
Definition ends_in_pdf (n : string) : Prop :=
  exists stem a b c d,
    n = String.append stem
          (String a (String b (String c (String d EmptyString))))
    /\ a = "."%char
    /\ (b = "p"%char \/ b = "P"%char)
    /\ (c = "d"%char \/ c = "D"%char)
    /\ (d = "f"%char \/ d = "F"%char).

Module GeneratorSpec.
Import Generator.

(** [v] is the payload of a successful job-analysis answer in [older]. *)
Definition analysis_received (older : list (Effect Outcome)) (v : value)
  : Prop :=
  exists url, In (Received (PostAnalyzeJob url) (Resolved v)) older.

(** [v] is the payload of a successful resume-analysis answer in [older]. *)
Definition resume_received (older : list (Effect Outcome)) (v : value)
  : Prop :=
  exists file, In (Received (PostAnalyzeResume file) (Resolved v)) older.

(** The job analysis and resume data a request carries were both
    answered by the backend before, [older] being the log at the time
    the request is sent. *)
Definition forwarded (r : Request) (older : list (Effect Outcome)) : Prop :=
  match r with
  | PostGenerateCoverLetter ja rd =>
      analysis_received older ja /\ resume_received older rd
  | PostGeneratePdf b | PostApplications b =>
      analysis_received older (job_analysis b)
      /\ resume_received older (resume_data b)
  | _ => True
  end.

Definition forwards_verbatim (l : list (Effect Outcome)) : Prop :=
  forall newer r older, l = newer ++ Sent r :: older -> forwarded r older.

(** The same, computed along the log. *)
Fixpoint verbatim (l : list (Effect Outcome)) : Prop :=
  match l with
  | [] => True
  | Sent r :: older => forwarded r older /\ verbatim older
  | _ :: older => verbatim older
  end.


(** The outcomes that take [generateCoverLetter] into its [catch]. *)
Definition generation_failed (o : Outcome) : Prop :=
  match o with
  | Rejected _ => True
  | Resolved data => prop data "cover_letter" = None
  end.

(** The stored form data. *)
Definition same_form_data (s t : State) : Prop :=
  jobUrl t = jobUrl s /\ jobAnalysis t = jobAnalysis s
  /\ resumeFile t = resumeFile s /\ resumeData t = resumeData s
  /\ coverLetter t = coverLetter s.

(** The three actions of step 4. *)
Definition export_action (e : Event) : Prop :=
  e = ClickSave \/ e = ClickDownload \/ e = ClickEdit.

(** The message each handler shows when its call is rejected with
    [body]. *)
Definition failure_message (h : Handler) (body : value) : value :=
  match h with
  | AnalyzeJob =>
      or_else (opt_prop body "detail") (str "Fehler bei der Analyse")
  | HandleFileUpload =>
      or_else (opt_prop body "detail") (str "Fehler bei der PDF-Analyse")
  | GenerateCoverLetter =>
      or_else (opt_prop body "detail") (str "Fehler bei der Generierung")
  | DownloadPdf => str "Fehler beim PDF-Download"
  | SaveApplication => str "Fehler beim Speichern"
  end.

(** *** What every reachable page satisfies *)

Definition generating (p : Page) : Prop :=
  currentStep (state p) = 3 \/ currentStep (state p) = 4
  \/ exists id k, In (id, k) (pending p) /\ handler k = GenerateCoverLetter.

Definition well_addressed (k : Suspended) : Prop :=
  match handler k with
  | AnalyzeJob => exists url, request k = PostAnalyzeJob url
  | HandleFileUpload => exists file, request k = PostAnalyzeResume file
  | _ => True
  end.

Record Inv (p : Page) : Prop := mkInv {
  inv_resume :
    resumeData (state p) = null
    \/ resume_received (log p) (resumeData (state p));
  inv_analysis :
    currentStep (state p) <> 1 \/
    (exists id k, In (id, k) (pending p) /\ handler k = GenerateCoverLetter) ->
    analysis_received (log p) (jobAnalysis (state p));
  inv_generating :
    generating p -> resume_received (log p) (resumeData (state p));
  inv_log : verbatim (log p);
  inv_pending : forall id k, In (id, k) (pending p) -> well_addressed k
}.

(** *** Sample runs *)

Definition cv : File := mkFile "cv.PDF" "%PDF-1.7".

Definition cv2 : File := mkFile "lebenslauf.pdf" "%PDF-1.4".

Definition acme : value :=
  VObj [("company_name", str "ACME"); ("job_title", str "Engineer")].

Definition jane : value := VObj [("full_name", str "Jane Doe")].

Definition letter : value := VObj [("cover_letter", str "Dear ACME,")].

Definition page_after (es : list Event) : Page :=
  match run start es with
  | Some p => p
  | None => start
  end.

(** Up to step 2 with an analysed resume.  Calls are numbered by the
    user events that start them: the analysis is call 1, the upload
    call 2. *)
Definition to_upload_done : list Event :=
  [ChangeJobUrl "https://jobs.example/1"; ClickAnalyze;
   Settle 1 (Resolved acme); ChooseFiles [cv]; Settle 2 (Resolved jane)].

(** Waiting for the cover letter (call 3). *)
Definition page_generating : Page :=
  Eval vm_compute in page_after (to_upload_done ++ [ClickGenerate]).

(** Waiting for the job analysis (call 1). *)
Definition page_analysing : Page :=
  Eval vm_compute in
    page_after [ChangeJobUrl "https://jobs.example/1"; ClickAnalyze].

(** In step 4, nothing outstanding. *)
Definition to_export : list Event :=
  to_upload_done ++ [ClickGenerate; Settle 3 (Resolved letter)].

Definition page_export : Page := Eval vm_compute in page_after to_export.

(** In step 4, waiting for the PDF (call 4). *)
Definition page_downloading : Page :=
  Eval vm_compute in page_after (to_export ++ [ClickDownload]).


(** Two uploads in flight, back to step 1; each answer clears the
    loading flag and lets one more analysis start (calls 5 and 6); the
    first analysis is answered. *)
Definition overlapping_analyses : list Event :=
  [ChangeJobUrl "https://jobs.example/1"; ClickAnalyze;
   Settle 1 (Resolved acme);
   ChooseFiles [cv]; ChooseFiles [cv2]; ClickBack;
   Settle 2 (Resolved jane); ClickAnalyze;
   Settle 3 (Resolved jane); ClickAnalyze;
   Settle 5 (Resolved acme)].

End GeneratorSpec.

Module DashboardSpec.
Import Dashboard.

(** [app] is one of the records of a list answered before. *)
Definition listed (older : list (Effect Outcome)) (app : Application)
  : Prop :=
  exists data,
    In (Received GetApplications (ResolvedList data)) older /\ In app data.

(** The job analysis and resume data a request carries are those of a
    record the backend listed before. *)
Definition forwarded (r : Request) (older : list (Effect Outcome)) : Prop :=
  match r with
  | PostGenerateCoverLetter ja rd =>
      (exists app, listed older app /\ job_analysis app = ja)
      /\ (exists app, listed older app /\ resume_data app = rd)
  | PostGeneratePdf b | PostApplications b =>
      (exists app, listed older app /\ job_analysis app = Api.job_analysis b)
      /\ (exists app, listed older app /\ resume_data app = Api.resume_data b)
  | _ => True
  end.

Definition forwards_verbatim (l : list (Effect Outcome)) : Prop :=
  forall newer r older, l = newer ++ Sent r :: older -> forwarded r older.

(** What the dashboard sends: the list call, delete calls, and PDF
    calls whose body is built from a record listed before. *)
Definition sent_ok (r : Request) (older : list (Effect Outcome)) : Prop :=
  match r with
  | GetApplications | DeleteApplicationById _ => True
  | PostGeneratePdf b => exists app, listed older app /\ b = body_of app
  | _ => False
  end.

Fixpoint all_sent_ok (l : list (Effect Outcome)) : Prop :=
  match l with
  | [] => True
  | Sent r :: older => sent_ok r older /\ all_sent_ok older
  | _ :: older => all_sent_ok older
  end.

Definition all_listed (l : list (Effect Outcome)) (apps : list Application)
  : Prop :=
  forall app, In app apps -> listed l app.

Record Inv (p : Page) : Prop := mkInv {
  inv_applications : all_listed (log p) (applications (state p));
  inv_selected :
    forall app, selectedApp (state p) = Some app -> listed (log p) app;
  inv_pending :
    forall id k, In (id, k) (pending p) ->
      all_listed (log p) (applications (closure k))
      /\ (handler k = FetchApplications -> request k = GetApplications);
  inv_log : all_sent_ok (log p)
}.

(** The message each handler shows when its call is rejected. *)
Definition failure_message (h : Handler) : value :=
  match h with
  | FetchApplications => str "Fehler beim Laden der Bewerbungen"
  | DeleteApplication => str "Fehler beim Löschen"
  | DownloadPdf _ => str "Fehler beim PDF-Download"
  end.

(** *** Sample runs *)

Definition record (n : Z) (company : string) : Application :=
  {| id := PNum n;
     job_url := str "https://jobs.example/1";
     job_analysis := VObj [("company_name", str company)];
     resume_data := VObj [("full_name", str "Jane Doe")];
     cover_letter := str "Dear Sir or Madam,";
     company_name := str company;
     job_title := str "Engineer";
     created_at := str "2024-05-01T10:00:00" |}.

Definition three : list Application :=
  [record 1 "ACME"; record 2 "Globex"; record 3 "Initech"].

Definition page_after (es : list Event) : Page :=
  match run start es with
  | Some p => p
  | None => start
  end.

(** The list is shown, the first card's deletion is confirmed (call 2). *)
Definition to_deleting : list Event :=
  [Settle 0 (ResolvedList three); ClickTrash 0; ClickConfirmDelete].

Definition page_deleting : Page := Eval vm_compute in page_after to_deleting.

(** Two confirmed deletions in flight: the first card (call 2), then,
    the dialog closed and reopened, the second card (call 5). *)
Definition overlapping_deletes : list Event :=
  to_deleting ++ [DialogOpenChange; ClickTrash 1; ClickConfirmDelete].

(** The list is shown and the first card's download is started
    (call 1). *)
Definition to_card_download : list Event :=
  [Settle 0 (ResolvedList three); ClickCardDownload 0].

(** What a backend says when it refuses. *)
Definition refusal : value := VObj [("detail", str "Not authenticated")].

End DashboardSpec.

(** ** What the generator renders *)

Module GeneratorView.
Import Generator.

(** The [steps] table. *)
Definition steps : list (Z * string) :=
  [(1, "Link einfügen"); (2, "PDFs hochladen"); (3, "Generieren");
   (4, "Vorschau & Download")].

(** [a[i]] for an integer [i]; [None] is [undefined]. *)
Definition at_index {A : Type} (a : list A) (i : Z) : option A :=
  if i <? 0 then None else nth_error a (Z.to_nat i).

(** [steps[currentStep - 1].title], the title in the line under the
    indicators; [None] is the TypeError of reading [title] of
    [undefined]. *)
Definition step_title (s : State) : option string :=
  option_map snd (at_index steps (currentStep s - 1)).

(** The class of a step indicator. *)
Inductive Mark : Type := Active | Completed | Pending.

Definition mark (s : State) (id : Z) : Mark :=
  if currentStep s =? id then Active
  else if currentStep s >? id then Completed
  else Pending.

Definition indicators (s : State) : list Mark :=
  map (fun step => mark s (fst step)) steps.

Definition newline : ascii := ascii_of_nat 10.

(** [s.split(sep)] for a one-character separator. *)
Fixpoint split (sep : ascii) (s : string) : list string :=
  match s with
  | EmptyString => [EmptyString]
  | String c rest =>
      if Ascii.eqb c sep then EmptyString :: split sep rest
      else
        match split sep rest with
        | [] => [String c EmptyString]
        | line :: lines => String c line :: lines
        end
  end.

(** The paragraphs of the preview in step 4, [coverLetter.split('\n')];
    [None] is the TypeError on anything but a string. *)
Definition preview (letter : value) : option (list string) :=
  match letter with
  | VPrim (PStr s) => Some (split newline s)
  | _ => None
  end.

(** Whether the render of [s] goes through: the title line is read in
    every step, the preview in step 4. *)
Definition renders (s : State) : bool :=
  match step_title s with
  | None => false
  | Some _ =>
      if currentStep s =? 4 then
        match preview (coverLetter s) with
        | Some _ => true
        | None => false
        end
      else true
  end.

End GeneratorView.

(** ** What a card of the dashboard shows *)

Module DashboardView.
Import Dashboard.


End DashboardView.

(** ** LandingPage and its AuthModal *)

Module Landing.

Record FormData : Type := mkFormData {
  name : string;
  email : string;
  password : string
}.

(** The state cells of [LandingPage] ([showAuth], [authMode]) and of the
    [AuthModal] it always renders ([mode], [loading], [formData]). *)
Record State : Type := mkState {
  showAuth : bool;
  authMode : string;
  mode : string;
  loading : bool;
  formData : FormData
}.

Definition blank : FormData := {| name := ""; email := ""; password := "" |}.

(** [useState(initialMode)] reads the prop once, when the modal mounts
    with the page; [authMode] is ['login'] then. *)
Definition initial : State :=
  {| showAuth := false; authMode := "login"; mode := "login";
     loading := false; formData := blank |}.

(** The two functions of the authentication context the modal awaits. *)
Inductive Call : Type :=
| Login (email password : string)
| Register (email password name : string).

Inductive Outcome : Type :=
| Fulfilled
| Rejected (body : value).

Inductive Effect : Type :=
| Called (c : Call)
| Answered (c : Call) (o : Outcome)
| ToastError (message : value)
| ToastSuccess (message : value)
| Navigated (path : string)
| Scrolled (element : string).

(** [handleSubmit] suspended at its [await]. *)
Record Suspended : Type := mkSuspended {
  closure : State;
  call : Call
}.

Inductive Stmt : Type :=
| setShowAuth (b : bool)
| setAuthMode (m : string)
| setMode (m : string)
| setLoading (b : bool)
| setFormData (f : FormData)
| await_auth (id : nat) (k : Suspended)
| toast_error (m : value)
| toast_success (m : value)
| navigate (path : string)
| scrollIntoView (element : string).

(** *** LandingPage *)

Definition handleGetStarted (isAuthenticated : bool) : list Stmt :=
  if isAuthenticated then [navigate "/generator"]
  else [setAuthMode "register"; setShowAuth true].

(** The [onClose] prop given to the modal. *)
Definition onClose : list Stmt := [setShowAuth false].

(** *** AuthModal *)

Definition handleSubmit (id : nat) (s : State) : list Stmt :=
  [setLoading true;
   await_auth id
     (mkSuspended s
        (if String.eqb (mode s) "login" then
           Login (email (formData s)) (password (formData s))
         else
           Register (email (formData s)) (password (formData s))
             (name (formData s))))].

Definition handleSubmit_settled (s : State) (o : Outcome) : list Stmt :=
  match o with
  | Fulfilled =>
      [toast_success
         (if String.eqb (mode s) "login" then str "Erfolgreich angemeldet!"
          else str "Konto erfolgreich erstellt!")]
      ++ onClose ++ [navigate "/generator"]
  | Rejected body =>
      [toast_error (or_else (opt_prop body "detail")
                            (str "Ein Fehler ist aufgetreten"))]
  end ++ [setLoading false].

Definition toggleMode (s : State) : list Stmt :=
  [setMode (if String.eqb (mode s) "login" then "register" else "login");
   setFormData blank].

(** *** The page *)

Record Page : Type := mkPage {
  state : State;
  isAuthenticated : bool;
  mounted : bool;
  pending : list (nat * Suspended);
  log : list Effect;
  fresh : nat
}.

Definition start (authenticated : bool) : Page :=
  {| state := initial; isAuthenticated := authenticated; mounted := true;
     pending := []; log := []; fresh := 0 |}.

Definition set_state (f : State -> State) (p : Page) : Page :=
  if mounted p then
    {| state := f (state p); isAuthenticated := isAuthenticated p;
       mounted := mounted p; pending := pending p; log := log p;
       fresh := fresh p |}
  else p.

Definition emit (e : Effect) (p : Page) : Page :=
  {| state := state p; isAuthenticated := isAuthenticated p;
     mounted := mounted p; pending := pending p; log := e :: log p;
     fresh := fresh p |}.

Definition exec1 (c : Stmt) (p : Page) : Page :=
  match c with
  | setShowAuth b =>
      set_state (fun s =>
        mkState b (authMode s) (mode s) (loading s) (formData s)) p
  | setAuthMode m =>
      set_state (fun s =>
        mkState (showAuth s) m (mode s) (loading s) (formData s)) p
  | setMode m =>
      set_state (fun s =>
        mkState (showAuth s) (authMode s) m (loading s) (formData s)) p
  | setLoading b =>
      set_state (fun s =>
        mkState (showAuth s) (authMode s) (mode s) b (formData s)) p
  | setFormData f =>
      set_state (fun s =>
        mkState (showAuth s) (authMode s) (mode s) (loading s) f) p
  | await_auth id k =>
      {| state := state p; isAuthenticated := isAuthenticated p;
         mounted := mounted p; pending := (id, k) :: pending p;
         log := Called (call k) :: log p; fresh := fresh p |}
  | toast_error m => emit (ToastError m) p
  | toast_success m => emit (ToastSuccess m) p
  | navigate path =>
      {| state := state p; isAuthenticated := isAuthenticated p;
         mounted := false; pending := pending p;
         log := Navigated path :: log p; fresh := fresh p |}
  | scrollIntoView element => emit (Scrolled element) p
  end.

Definition exec (body : list Stmt) (p : Page) : Page :=
  fold_left (fun q c => exec1 c q) body p.

(** *** Events *)

Inductive Event : Type :=
| ClickLoginNav                      (* login-nav-btn *)
| ClickRegisterNav                   (* register-nav-btn *)
| ClickDashboardNav                  (* dashboard-nav-btn *)
| ClickStartNav                      (* start-nav-btn *)
| ClickGetStarted                    (* hero-cta-btn, cta-btn *)
| ClickLearnMore                     (* learn-more-btn *)
| ChangeName (text : string)         (* name-input *)
| ChangeEmail (text : string)        (* email-input *)
| ChangePassword (text : string)     (* password-input *)
| Submit                             (* the form, by auth-submit-btn *)
| ClickToggleMode                    (* toggle-auth-mode *)
| CloseModal                         (* the dialog's onOpenChange *)
| SessionChange (authenticated : bool)  (* the context's value changes *)
| Settle (id : nat) (o : Outcome).

(** The statements a user event runs, [None] when the render does not
    offer the control.  The inputs' validation attributes are left to
    the browser: [handleSubmit] checks nothing itself. *)
Definition on_event (id : nat) (auth : bool) (s : State) (e : Event)
  : option (list Stmt) :=
  match e with
  | ClickLoginNav =>
      if auth then None else Some [setAuthMode "login"; setShowAuth true]
  | ClickRegisterNav =>
      if auth then None else Some [setAuthMode "register"; setShowAuth true]
  | ClickDashboardNav => if auth then Some [navigate "/dashboard"] else None
  | ClickStartNav => if auth then Some [navigate "/generator"] else None
  | ClickGetStarted => Some (handleGetStarted auth)
  | ClickLearnMore => Some [scrollIntoView "how-it-works"]
  | ChangeName text =>
      if showAuth s && String.eqb (mode s) "register" then
        Some [setFormData
                (mkFormData text (email (formData s)) (password (formData s)))]
      else None
  | ChangeEmail text =>
      if showAuth s then
        Some [setFormData
                (mkFormData (name (formData s)) text (password (formData s)))]
      else None
  | ChangePassword text =>
      if showAuth s then
        Some [setFormData
                (mkFormData (name (formData s)) (email (formData s)) text)]
      else None
  | Submit =>
      if showAuth s && negb (loading s) then Some (handleSubmit id s)
      else None
  | ClickToggleMode => if showAuth s then Some (toggleMode s) else None
  | CloseModal => if showAuth s then Some onClose else None
  | SessionChange _ | Settle _ _ => None
  end.

Definition next_id (p : Page) : Page :=
  {| state := state p; isAuthenticated := isAuthenticated p;
     mounted := mounted p; pending := pending p; log := log p;
     fresh := S (fresh p) |}.

Definition take (id : nat) (k : Suspended) (o : Outcome) (p : Page) : Page :=
  {| state := state p; isAuthenticated := isAuthenticated p;
     mounted := mounted p; pending := drop id (pending p);
     log := Answered (call k) o :: log p; fresh := fresh p |}.

Definition react (p : Page) (e : Event) : option Page :=
  match e with
  | SessionChange b =>
      Some {| state := state p; isAuthenticated := b; mounted := mounted p;
              pending := pending p; log := log p; fresh := fresh p |}
  | Settle id o =>
      match assoc id (pending p) with
      | Some k => Some (exec (handleSubmit_settled (closure k) o) (take id k o p))
      | None => None
      end
  | _ =>
      if mounted p then
        match on_event (fresh p) (isAuthenticated p) (state p) e with
        | Some body => Some (exec body (next_id p))
        | None => None
        end
      else None
  end.

Fixpoint run (p : Page) (es : list Event) : option Page :=
  match es with
  | [] => Some p
  | e :: rest =>
      match react p e with
      | Some q => run q rest
      | None => None
      end
  end.

End Landing.

(** ** Further properties of the generator *)

Module GeneratorShape.
Import Generator GeneratorView.

(** The requests of a log, newest first. *)
Fixpoint requests {R : Type} (l : list (Effect R)) : list Request :=
  match l with
  | [] => []
  | Sent r :: older => r :: requests older
  | _ :: older => requests older
  end.

(** The timer each handler starts before its call, by its increment. *)
Definition timer_of (h : Handler) : option Z :=
  match h with
  | AnalyzeJob | HandleFileUpload => Some 10
  | GenerateCoverLetter => Some 5
  | DownloadPdf | SaveApplication => None
  end.

(** [v] is the [cover_letter] of a successful generation answer in
    [older]. *)
Definition letter_received (older : list (Effect Outcome)) (v : value)
  : Prop :=
  exists ja rd data,
    In (Received (PostGenerateCoverLetter ja rd) (Resolved data)) older
    /\ prop data "cover_letter" = Some v.

Definition letter_forwarded (r : Request) (older : list (Effect Outcome))
  : Prop :=
  match r with
  | PostGeneratePdf b | PostApplications b =>
      letter_received older (cover_letter b)
  | _ => True
  end.

Fixpoint letters_forwarded (l : list (Effect Outcome)) : Prop :=
  match l with
  | [] => True
  | Sent r :: older => letter_forwarded r older /\ letters_forwarded older
  | _ :: older => letters_forwarded older
  end.

(** Ranges of the numbers on the page. *)
Record Ranges (p : Page) : Prop := mkRanges {
  range_step : 1 <= currentStep (state p) <= 4;
  range_progress : 0 <= progress (state p) <= 90;
  range_timers :
    forall id inc, In (id, inc) (intervals p) -> inc = 5 \/ inc = 10
}.

(** Book-keeping of calls and timers. *)
Record Calls (p : Page) : Prop := mkCalls {
  calls_fresh : forall id k, In (id, k) (pending p) -> (id < fresh p)%nat;
  calls_timers_fresh :
    forall id inc, In (id, inc) (intervals p) -> (id < fresh p)%nat;
  calls_distinct : NoDup (map fst (pending p));
  calls_timed :
    forall id k inc, In (id, k) (pending p) ->
      timer_of (handler k) = Some inc -> assoc id (intervals p) = Some inc;
  calls_generating :
    mounted p = true -> currentStep (state p) = 3 ->
    exists id k, In (id, k) (pending p) /\ handler k = GenerateCoverLetter
}.

(** Where the cover letter comes from. *)
Record Letters (p : Page) : Prop := mkLetters {
  letters_step4 :
    currentStep (state p) = 4 ->
    letter_received (log p) (coverLetter (state p));
  letters_stored :
    coverLetter (state p) = str ""
    \/ letter_received (log p) (coverLetter (state p));
  letters_sent : letters_forwarded (log p);
  letters_addressed :
    forall id k, In (id, k) (pending p) ->
      handler k = GenerateCoverLetter ->
      exists ja rd, request k = PostGenerateCoverLetter ja rd
}.

(** A timer whose call is gone: nothing on the page can clear it. *)
Record Orphan (id : nat) (inc : Z) (p : Page) : Prop := mkOrphan {
  orphan_timer : assoc id (intervals p) = Some inc;
  orphan_call : forall k, ~ In (id, k) (pending p);
  orphan_old : (id < fresh p)%nat
}.

(** An answer that carries a letter, but not under [cover_letter]. *)
Definition letterless : value := VObj [("text", str "Dear ACME,")].

(** Whether the character [c] occurs in [s]. *)
Fixpoint occurs (c : ascii) (s : string) : bool :=
  match s with
  | EmptyString => false
  | String d rest => Ascii.eqb d c || occurs c rest
  end.

(** Events the user causes, as opposed to answers and timer ticks. *)
Definition by_user (e : Event) : bool :=
  match e with
  | Tick _ | Settle _ _ => false
  | _ => true
  end.

(** The state after a string of events that all can happen. *)
Definition page_after (es : list Event) : Page :=
  match run start es with
  | Some p => p
  | None => start
  end.

(** Waiting for the resume analysis (call 2), none stored yet. *)
Definition to_uploading : list Event :=
  [ChangeJobUrl "https://jobs.example/1"; ClickAnalyze;
   Settle 1 (Resolved GeneratorSpec.acme); ChooseFiles [GeneratorSpec.cv]].

Definition page_uploading : Page := Eval vm_compute in page_after to_uploading.

(** A second file is being analysed (call 3) after a first success. *)
Definition to_uploading_again : list Event :=
  GeneratorSpec.to_upload_done ++ [ChooseFiles [GeneratorSpec.cv2]].

Definition page_uploading_again : Page :=
  Eval vm_compute in page_after to_uploading_again.

End GeneratorShape.

(** ** Further properties of the dashboard *)

Module DashboardShape.
Import Dashboard DashboardSpec.

(** Every delete call names the truthy id of a record listed before. *)
Definition delete_ok (r : Request) (older : list (Effect Outcome)) : Prop :=
  match r with
  | DeleteApplicationById i =>
      truthy_prim i = true /\ exists app, listed older app /\ id app = i
  | _ => True
  end.

Fixpoint deletes_ok (l : list (Effect Outcome)) : Prop :=
  match l with
  | [] => True
  | Sent r :: older => delete_ok r older /\ deletes_ok older
  | _ :: older => deletes_ok older
  end.

Record Targets (p : Page) : Prop := mkTargets {
  targets_id :
    deleteId (state p) = PNull
    \/ exists app, listed (log p) app /\ id app = deleteId (state p);
  targets_sent : deletes_ok (log p)
}.

(** While the list is loading the mounted page is still as it started;
    afterwards no list call is outstanding. *)
Definition Loaded (p : Page) : Prop :=
  mounted p = true ->
  (state p = initial /\ pending p = pending start)
  \/ (loading (state p) = false
      /\ forall n k, In (n, k) (pending p) -> handler k <> FetchApplications).

(** The list call is the oldest entry of the log and is never sent
    again. *)
Definition fetched_once (l : list (Effect Outcome)) : Prop :=
  exists newer,
    l = newer ++ [Sent GetApplications]
    /\ ~ In GetApplications (GeneratorShape.requests newer).

(** A record the delete button cannot remove: its id is falsy. *)
Definition unnumbered : Application :=
  {| id := PNum 0;
     job_url := str "https://jobs.example/0";
     job_analysis := VObj [];
     resume_data := VObj [];
     cover_letter := str "Dear Sir or Madam,";
     company_name := str "Umbrella";
     job_title := str "Engineer";
     created_at := str "2024-05-01T10:00:00" |}.

Definition page_after (es : list Event) : Page :=
  match run start es with
  | Some p => p
  | None => start
  end.

Definition page_unnumbered : Page :=
  Eval vm_compute in
    page_after [Settle 0 (ResolvedList (unnumbered :: three))].

(** The list is shown and the first card's delete dialog is open. *)
Definition page_dialog : Page :=
  Eval vm_compute in
    page_after [Settle 0 (ResolvedList three); ClickTrash 0].

End DashboardShape.

(** ** Properties of the landing page *)

Module LandingShape.
Import Landing.

Fixpoint toggles (es : list Event) : nat :=
  match es with
  | [] => 0
  | ClickToggleMode :: rest => S (toggles rest)
  | _ :: rest => toggles rest
  end.

(** The other mode, as [toggleMode] picks it. *)
Definition flip (m : string) : string :=
  if String.eqb m "login" then "register" else "login".

(** The mode after [n] uses of the toggle. *)
Definition mode_after (n : nat) : string :=
  if Nat.even n then "login" else "register".

Definition page_after (authenticated : bool) (es : list Event) : Page :=
  match run (start authenticated) es with
  | Some p => p
  | None => start authenticated
  end.

Definition reachable (p : Page) : Prop :=
  exists authenticated es, run (start authenticated) es = Some p.

(** The navigations of a log, newest first. *)
Fixpoint navigations (l : list Effect) : list string :=
  match l with
  | [] => []
  | Navigated path :: older => path :: navigations older
  | _ :: older => navigations older
  end.

(** The submit button tells the truth: the flag is set exactly while
    the one call is outstanding. *)
Record Busy (p : Page) : Prop := mkBusy {
  busy_one : (List.length (pending p) <= 1)%nat;
  busy_flag :
    mounted p = true ->
    (loading (state p) = true <-> pending p <> [])
}.

(** A visitor typing credentials in the modal opened by the register
    button, and submitting (call 3). *)
Definition register_then_submit : list Event :=
  [ClickRegisterNav; ChangeEmail "jane@example.org";
   ChangePassword "secret1"; Submit].

Definition page_submitting : Page :=
  Eval vm_compute in page_after false register_then_submit.

End LandingShape.

(** ** Facts about the string helpers *)

Lemma lower_ascii_cases (c l : ascii) :
  lower_ascii c = l ->
  c = l \/ (nat_of_ascii c + 32 = nat_of_ascii l)%nat.
Proof.
  unfold lower_ascii.
  destruct (Nat.leb 65 (nat_of_ascii c) && Nat.leb (nat_of_ascii c) 90)%bool
    eqn:E; intros H; [right | left; exact H].
  apply andb_true_iff in E as [E1 E2].
  apply Nat.leb_le in E1, E2.
  subst l. rewrite nat_ascii_embedding; lia.
Qed.

Lemma lower_dot c : lower_ascii c = "."%char -> c = "."%char.
Proof.
  intros H. destruct (lower_ascii_cases _ _ H) as [E | E]; [exact E |].
  exfalso. unfold lower_ascii in H.
  destruct (Nat.leb 65 (nat_of_ascii c) && Nat.leb (nat_of_ascii c) 90)%bool
    eqn:B.
  - apply andb_true_iff in B as [B1 _]. apply Nat.leb_le in B1.
    change (nat_of_ascii "."%char) with 46%nat in E. lia.
  - subst c. vm_compute in E. discriminate E.
Qed.

Lemma lower_letter (c l u : ascii) :
  (nat_of_ascii u + 32 = nat_of_ascii l)%nat ->
  lower_ascii c = l -> c = l \/ c = u.
Proof.
  intros Hu H. destruct (lower_ascii_cases _ _ H) as [E | E]; [now left |].
  right. rewrite <- (ascii_nat_embedding c), <- (ascii_nat_embedding u).
  f_equal. lia.
Qed.

Lemma endsWith_pdf_sound (n : string) :
  endsWith (toLowerCase n) ".pdf" = true -> ends_in_pdf n.
Proof.
  induction n as [| ch n IH]; intros H.
  - discriminate H.
  - cbn [toLowerCase endsWith] in H.
    destruct (String.eqb (String (lower_ascii ch) (toLowerCase n)) ".pdf")
      eqn:E.
    + apply String.eqb_eq in E.
      destruct n as [| b [| c [| d [| x n]]]]; try discriminate E.
      cbn in E. injection E as Ea Eb Ec Ed.
      exists EmptyString, ch, b, c, d. cbn. repeat split.
      * now apply lower_dot.
      * now apply (lower_letter b "p" "P").
      * now apply (lower_letter c "d" "D").
      * now apply (lower_letter d "f" "F").
    + destruct (IH H) as (stem & a & b & c & d & -> & R).
      exists (String ch stem), a, b, c, d. split; [reflexivity | exact R].
Qed.

Lemma endsWith_pdf_complete (n : string) :
  ends_in_pdf n -> endsWith (toLowerCase n) ".pdf" = true.
Proof.
  intros (stem & a & b & c & d & -> & -> & Hb & Hc & Hd).
  induction stem as [| ch stem IH].
  - destruct Hb as [-> | ->], Hc as [-> | ->], Hd as [-> | ->];
      reflexivity.
  - cbn [String.append toLowerCase endsWith].
    destruct (String.eqb _ ".pdf"); [reflexivity | exact IH].
Qed.

(** ** Facts about the table of suspended handlers *)

Lemma assoc_In {A} (id : nat) (l : list (nat * A)) (a : A) :
  assoc id l = Some a -> In (id, a) l.
Proof.
  induction l as [| [i b] l IH]; cbn; [discriminate |].
  destruct (Nat.eqb id i) eqn:E.
  - intros [= ->]. apply Nat.eqb_eq in E. subst. now left.
  - intros H. right. now apply IH.
Qed.

Lemma drop_In {A} (id : nat) (l : list (nat * A)) (x : nat * A) :
  In x (drop id l) -> In x l.
Proof.
  induction l as [| [i b] l IH]; cbn; [tauto |].
  destruct (Nat.eqb id i); cbn; intuition.
Qed.

Lemma drop_length {A} (id : nat) (l : list (nat * A)) :
  (List.length (drop id l) <= List.length l)%nat.
Proof.
  induction l as [| [i b] l IH]; cbn; [lia |].
  destruct (Nat.eqb id i); cbn; lia.
Qed.

(** ** The generator flow *)

Module GeneratorProofs.
Import Generator GeneratorSpec.

Ltac page p :=
  destruct p as [[step ld pr pt url ja rf rd cl] mt pend ints lg fr].

(** *** The flow on a sample run *)

Example happy_path_reaches_export :
  run start to_export = Some page_export
  /\ currentStep (state page_export) = 4
  /\ loading (state page_export) = false
  /\ jobAnalysis (state page_export) = acme
  /\ resumeFile (state page_export) = Some cv
  /\ resumeData (state page_export) = jane
  /\ coverLetter (state page_export) = str "Dear ACME,"
  /\ pending page_export = []
  /\ intervals page_export = [].
Proof. vm_compute. repeat split. Qed.

Example happy_path_requests :
  filter (fun e => match e with Sent _ => true | _ => false end)
    (log page_export)
  = [Sent (PostGenerateCoverLetter acme jane);
     Sent (PostAnalyzeResume cv);
     Sent (PostAnalyzeJob "https://jobs.example/1")].
Proof. reflexivity. Qed.

Example download_saves_under_the_company_name :
  exists q,
    react page_downloading (Settle 4 (Resolved (str "%PDF"))) = Some q
    /\ log q = ToastSuccess (str "PDF heruntergeladen!")
               :: SaveAs (str "ACME") (str "%PDF")
               :: Received (PostGeneratePdf (body_of (state page_export)))
                    (Resolved (str "%PDF"))
               :: log page_downloading
    /\ loading (state q) = false.
Proof. eexists. split; [vm_compute; reflexivity |]. split; reflexivity. Qed.

Example a_rejected_analysis_leaks_its_timer :
  exists q,
    react page_analysing (Settle 1 (Rejected undefined)) = Some q
    /\ currentStep (state q) = 1
    /\ pending q = []
    /\ intervals q = [(1%nat, 10)].
Proof. eexists. split; [vm_compute; reflexivity |]. repeat split. Qed.

(** *** Single handlers *)

(** C7: invoking the job-URL submit action while the stored URL is empty
    issues no network call, leaves the whole component state (the step
    included) as it was, and shows the validation message. *)
Theorem C7_empty_url_submit_is_refused (p : Page) (id : nat) :
  jobUrl (state p) = "" ->
  let q := exec (analyzeJob id (state p)) p in
  state q = state p
  /\ pending q = pending p
  /\ intervals q = intervals p
  /\ log q = ToastError (str "Bitte geben Sie eine URL ein") :: log p.
Proof.
  intros H. unfold analyzeJob. rewrite H. cbn. repeat split.
Qed.

Lemma C7_witness :
  let q := exec (analyzeJob 0 (state start)) start in
  state q = state start
  /\ pending q = pending start
  /\ intervals q = intervals start
  /\ log q = ToastError (str "Bitte geben Sie eine URL ein") :: log start.
Proof. apply (C7_empty_url_submit_is_refused start 0). reflexivity. Defined.

(** C8: a chosen file whose name does not end in [.pdf], whatever the
    case, is refused by the upload handler on the client: no request is
    sent, neither the file nor any resume data is stored (the component
    state is untouched) and an error message is shown. *)
Theorem C8_non_pdf_upload_is_refused
  (p : Page) (id : nat) (file : File) (others : list File) :
  ~ ends_in_pdf (name file) ->
  let q := exec (handleFileUpload id (file :: others)) p in
  state q = state p
  /\ pending q = pending p
  /\ intervals q = intervals p
  /\ log q = ToastError (str "Nur PDF-Dateien werden akzeptiert") :: log p.
Proof.
  intros H. unfold handleFileUpload.
  destruct (endsWith (toLowerCase (name file)) ".pdf") eqn:E.
  - exfalso. apply H. now apply endsWith_pdf_sound.
  - cbn. repeat split.
Qed.

Lemma C8_witness :
  let q := exec (handleFileUpload 0 [mkFile "cv.docx" "PK"]) start in
  state q = state start
  /\ pending q = pending start
  /\ intervals q = intervals start
  /\ log q = ToastError (str "Nur PDF-Dateien werden akzeptiert")
             :: log start.
Proof.
  apply (C8_non_pdf_upload_is_refused start 0 (mkFile "cv.docx" "PK") []).
  intros H. apply endsWith_pdf_complete in H. discriminate H.
Defined.

(** C5: a failed cover-letter generation call puts the controller back
    in step 2, and neither starting the attempt nor its failure touches
    the stored job analysis and resume data (nor any other form data). *)
Theorem C5_failed_generation_returns_to_upload :
  (forall p q, react p ClickGenerate = Some q ->
     same_form_data (state p) (state q))
  /\ (forall p id k o,
        mounted p = true ->
        assoc id (pending p) = Some k ->
        handler k = GenerateCoverLetter ->
        generation_failed o ->
        exists q, react p (Settle id o) = Some q
          /\ currentStep (state q) = 2
          /\ same_form_data (state p) (state q)).
Proof.
  split.
  - intros p q H. page p. unfold react in H. cbn in H.
    destruct (mt && _)%bool eqn:E; [| discriminate H].
    injection H as <-. destruct mt; [| discriminate E].
    cbn. repeat split.
  - intros p id k o Hm Hp Hk Hf. page p. cbn in Hm, Hp. subst mt.
    unfold react. cbn. rewrite Hp. unfold settled. rewrite Hk.
    eexists; split; [reflexivity |].
    destruct o as [data | body]; cbn in Hf |- *.
    + rewrite Hf. cbn. repeat split.
    + repeat split.
Qed.

Lemma C5_witness :
  exists q, react page_generating (Settle 3 (Rejected undefined)) = Some q
    /\ currentStep (state q) = 2
    /\ same_form_data (state page_generating) (state q).
Proof.
  destruct C5_failed_generation_returns_to_upload as [_ H].
  eapply H; [reflexivity | cbv; reflexivity | reflexivity | exact I].
Defined.

(** C6, as stated, fails: with two uploads and then two analyses in
    flight, the first analysis answer moves the page to step 2, and the
    second answer, also successful, finds the page in step 2 and leaves
    it there: no step is advanced. *)
Lemma C6_counterexample :
  exists p k q,
    run start overlapping_analyses = Some p
    /\ assoc 6 (pending p) = Some k
    /\ handler k = AnalyzeJob
    /\ react p (Settle 6 (Resolved acme)) = Some q
    /\ currentStep (state p) = 2
    /\ currentStep (state q) <> currentStep (state p) + 1.
Proof.
  eexists _, _, _.
  split; [vm_compute; reflexivity |].
  split; [vm_compute; reflexivity |].
  split; [reflexivity |].
  split; [vm_compute; reflexivity |].
  split; [reflexivity | discriminate].
Qed.

(** C6, amended: a successful answer to a job-analysis call stores the
    analysis result and sets the step to 2, which is an advance of
    exactly one step whenever the page is still in step 1; the job URL,
    the resume file, the resume data and the cover letter are left as
    they were. *)
Theorem C6_analysis_success_stores_and_enters_upload
  (p : Page) (id : nat) (k : Suspended) (data : value) :
  mounted p = true ->
  assoc id (pending p) = Some k ->
  handler k = AnalyzeJob ->
  exists q, react p (Settle id (Resolved data)) = Some q
    /\ jobAnalysis (state q) = data
    /\ currentStep (state q) = 2
    /\ (currentStep (state p) = 1 ->
        currentStep (state q) = currentStep (state p) + 1)
    /\ jobUrl (state q) = jobUrl (state p)
    /\ resumeFile (state q) = resumeFile (state p)
    /\ resumeData (state q) = resumeData (state p)
    /\ coverLetter (state q) = coverLetter (state p).
Proof.
  intros Hm Hp Hk. page p. cbn in Hm, Hp. subst mt.
  unfold react. cbn. rewrite Hp. unfold settled. rewrite Hk.
  eexists; split; [reflexivity |]. cbn.
  repeat split. intros ->. reflexivity.
Qed.

Lemma C6_witness :
  exists q, react page_analysing (Settle 1 (Resolved acme)) = Some q
    /\ jobAnalysis (state q) = acme
    /\ currentStep (state q) = 2
    /\ (currentStep (state page_analysing) = 1 ->
        currentStep (state q) = currentStep (state page_analysing) + 1)
    /\ jobUrl (state q) = jobUrl (state page_analysing)
    /\ resumeFile (state q) = resumeFile (state page_analysing)
    /\ resumeData (state q) = resumeData (state page_analysing)
    /\ coverLetter (state q) = coverLetter (state page_analysing).
Proof.
  eapply (C6_analysis_success_stores_and_enters_upload page_analysing 1);
    [reflexivity | cbv; reflexivity | reflexivity].
Defined.

(** *** The invariant of the flow *)

Lemma analysis_received_cons e l v :
  analysis_received l v -> analysis_received (e :: l) v.
Proof. intros [u H]. exists u. now right. Qed.

Lemma resume_received_cons e l v :
  resume_received l v -> resume_received (e :: l) v.
Proof. intros [u H]. exists u. now right. Qed.

Lemma analysis_received_here url v l :
  analysis_received (Received (PostAnalyzeJob url) (Resolved v) :: l) v.
Proof. exists url. now left. Qed.

Lemma resume_received_here file v l :
  resume_received (Received (PostAnalyzeResume file) (Resolved v) :: l) v.
Proof. exists file. now left. Qed.

Create HintDb gen.
#[local] Hint Resolve analysis_received_cons resume_received_cons
  analysis_received_here resume_received_here : gen.
#[local] Hint Extern 1 (_ <> _ :> Z) => lia : gen.

Lemma Inv_start : Inv start.
Proof.
  split; cbn.
  - now left.
  - intros [H | (id & k & [] & _)]. now elim H.
  - intros [H | [H | (id & k & [] & _)]]; discriminate H.
  - exact I.
  - intros id k [].
Qed.

Ltac split_guard G :=
  repeat match type of G with
  | (_ && _)%bool = true =>
      let G1 := fresh "G" in
      apply andb_true_iff in G as [G1 G]; try apply Z.eqb_eq in G1
  | (_ =? _) = true => apply Z.eqb_eq in G
  end.

Ltac cases :=
  repeat match goal with
  | H : exists _, _ |- _ => destruct H
  | H : _ /\ _ |- _ => destruct H
  | H : _ \/ _ |- _ => destruct H
  | H : (_, _) = (_, _) |- _ => inversion H; subst; clear H
  | H : handler _ = _ |- _ => cbn in H; discriminate H
  | H : _ = _ :> Z |- _ => discriminate H
  | H : ?x <> ?x |- _ => now elim H
  | H : In _ (drop _ _) |- _ => apply drop_In in H
  end.

Ltac finish :=
  split; unfold generating; cbn; intros; cases; subst;
  cbn; eauto 12 with gen; unfold well_addressed; cbn; eauto.

Lemma Inv_react p e q : Inv p -> react p e = Some q -> Inv q.
Proof.
  intros HI H. page p. destruct HI as [I1 I2 I3 I4 I5].
  unfold generating in I3. cbn in I1, I2, I3, I4, I5.
  destruct e; unfold react in H; cbn in H.
  all: try (destruct (mt && _)%bool eqn:G; [| discriminate H];
            injection H as <-; destruct mt; [| discriminate G]; cbn in G;
            split_guard G).
  - (* ChangeJobUrl *) finish.
  - (* ClickAnalyze *)
    unfold analyzeJob; cbn. destruct (String.eqb url ""); finish.
  - (* ChooseFiles *)
    destruct files as [| file files]; [finish |].
    unfold handleFileUpload.
    destruct (negb _); finish.
  - (* ClickBack *) finish.
  - (* ClickGenerate *)
    unfold generate_disabled in G. cbn in G.
    apply negb_true_iff, orb_false_iff in G. destruct G as [_ G].
    apply negb_false_iff in G.
    assert (RD : resume_received lg rd)
      by (destruct I1 as [-> |]; [discriminate G | assumption]).
    assert (JA : analysis_received lg ja) by (apply I2; left; lia).
    finish.
  - (* ClickEdit *) finish.
  - (* ClickSave *)
    assert (JA : analysis_received lg ja) by (apply I2; left; lia).
    assert (RD : resume_received lg rd) by (apply I3; right; now left).
    finish.
  - (* ClickDownload *)
    assert (JA : analysis_received lg ja) by (apply I2; left; lia).
    assert (RD : resume_received lg rd) by (apply I3; right; now left).
    finish.
  - (* ClickLogo *) finish.
  - (* ClickDashboard *) finish.
  - (* Tick *)
    destruct (assoc id ints); [| discriminate H]. injection H as <-.
    destruct mt; finish.
  - (* Settle *)
    destruct (assoc id pend) as [k |] eqn:A; [| discriminate H].
    injection H as <-. apply assoc_In in A. pose proof (I5 _ _ A) as W.
    destruct k as [h c r]. unfold settled. cbn [handler closure].
    unfold well_addressed in W. cbn in W.
    destruct h.
    + destruct W as [x ->]. destruct o, mt; finish.
    + destruct W as [x ->]. destruct o, mt; finish.
    + assert (JA : analysis_received lg ja)
        by (apply I2; right; eexists _, _; split; [exact A | reflexivity]).
      assert (RD : resume_received lg rd)
        by (apply I3; right; right; eexists _, _; split;
            [exact A | reflexivity]).
      unfold generateCoverLetter_settled.
      destruct o as [data | body];
        [destruct (prop data "cover_letter") |]; destruct mt; finish.
    + destruct o, mt; finish.
    + destruct o, mt; finish.
Qed.

Lemma Inv_run es : forall p q, Inv p -> run p es = Some q -> Inv q.
Proof.
  induction es as [| e es IH]; cbn; intros p q HI H.
  - now injection H as <-.
  - destruct (react p e) as [p' |] eqn:R; [| discriminate H].
    eapply IH; [| exact H]. eapply Inv_react; eassumption.
Qed.

Lemma Inv_reachable p : reachable p -> Inv p.
Proof. intros [es H]. eapply Inv_run; [apply Inv_start | exact H]. Qed.

Lemma verbatim_forwards l : verbatim l -> forwards_verbatim l.
Proof.
  intros V newer. revert l V.
  induction newer as [| e newer IH]; intros l V r older ->.
  - cbn in V. tauto.
  - cbn in V. eapply IH; [| reflexivity].
    destruct e; cbn in V; tauto.
Qed.

(** Every request a reachable generator page has sent carries a job
    analysis and resume data that the backend answered before. *)
Lemma reachable_forwards_verbatim p :
  reachable p -> forwards_verbatim (log p).
Proof.
  intros R. apply verbatim_forwards. now destruct (Inv_reachable p R).
Qed.

(** A rejected call shows exactly one message, the handler's own. *)
Lemma rejected_shows_one_message p id k body :
  assoc id (pending p) = Some k ->
  exists q, react p (Settle id (Rejected body)) = Some q
    /\ log q = ToastError (failure_message (handler k) body)
               :: Received (request k) (Rejected body) :: log p.
Proof.
  intros Hp. page p. cbn in Hp. unfold react. cbn. rewrite Hp.
  eexists; split; [reflexivity |].
  destruct k as [h c r]. unfold settled. cbn [handler closure request].
  destruct h, mt; reflexivity.
Qed.

(** *** The gate on the advance action *)





(** *** The three actions of step 4 *)

(** C2, as stated, fails: in step 4 with nothing outstanding the save
    action is available; starting the download sets the loading flag
    both buttons read, and the save action is no longer available. *)
Lemma C2_counterexample :
  exists q,
    run start to_export = Some page_export
    /\ currentStep (state page_export) = 4
    /\ offered (state page_export) ClickSave = true
    /\ react page_export ClickDownload = Some q
    /\ offered (state q) ClickSave = false.
Proof.
  eexists.
  split; [vm_compute; reflexivity |].
  split; [reflexivity |].
  split; [reflexivity |].
  split; [vm_compute; reflexivity | reflexivity].
Qed.

(** C2, amended: save, download and edit, and the answers to the save
    and download calls, never change the stored job URL, job analysis,
    resume file, resume data or cover letter; edit is available in step
    4 whatever the other two do and only changes the step; save and
    download share the loading flag: both are unavailable while it is
    set, and starting either sets it. *)
Theorem C2_export_actions_share_the_loading_flag :
  (forall p e q, export_action e -> react p e = Some q ->
     same_form_data (state p) (state q))
  /\ (forall p id k o q,
        assoc id (pending p) = Some k ->
        handler k = SaveApplication \/ handler k = DownloadPdf ->
        react p (Settle id o) = Some q ->
        same_form_data (state p) (state q)
        /\ currentStep (state q) = currentStep (state p))
  /\ (forall p, mounted p = true -> currentStep (state p) = 4 ->
        exists q, react p ClickEdit = Some q
          /\ currentStep (state q) = 2
          /\ loading (state q) = loading (state p)
          /\ pending q = pending p
          /\ log q = log p)
  /\ (forall p e, mounted p = true -> currentStep (state p) = 4 ->
        e = ClickSave \/ e = ClickDownload ->
        if loading (state p) then react p e = None
        else exists q, react p e = Some q
               /\ loading (state q) = true
               /\ currentStep (state q) = 4).
Proof.
  split; [| split; [| split]].
  - intros p e q [-> | [-> | ->]] H; page p; unfold react in H; cbn in H;
      (destruct (mt && _)%bool eqn:G; [| discriminate H]);
      injection H as <-; (destruct mt; [| discriminate G]);
      cbn; repeat split.
  - intros p id k o q Hp Hk H. page p. cbn in Hp. unfold react in H.
    cbn in H. rewrite Hp in H. injection H as <-.
    destruct k as [h c r]. cbn in Hk. unfold settled. cbn [handler closure].
    destruct Hk as [-> | ->]; destruct o, mt; cbn; repeat split.
  - intros p Hm Hs. page p. cbn in Hm, Hs. subst mt step.
    eexists; split; [reflexivity |]. cbn. repeat split.
  - intros p e Hm Hs He. page p. cbn in Hm, Hs |- *. subst mt step.
    destruct He as [-> | ->]; destruct ld; try reflexivity;
      (eexists; split; [reflexivity |]; cbn; split; reflexivity).
Qed.

Lemma C2_witness :
  (exists q, react page_export ClickDownload = Some q
     /\ loading (state q) = true /\ currentStep (state q) = 4)
  /\ react page_downloading ClickSave = None
  /\ (exists q, react page_downloading ClickEdit = Some q
        /\ currentStep (state q) = 2
        /\ loading (state q) = loading (state page_downloading)
        /\ pending q = pending page_downloading
        /\ log q = log page_downloading)
  /\ (forall q, react page_export ClickSave = Some q ->
        same_form_data (state page_export) (state q))
  /\ (forall q, react page_downloading (Settle 4 (Rejected undefined)) = Some q ->
        same_form_data (state page_downloading) (state q)
        /\ currentStep (state q) = currentStep (state page_downloading)).
Proof.
  destruct C2_export_actions_share_the_loading_flag as (H1 & H2 & H3 & H4).
  split; [| split; [| split; [| split]]].
  - apply (H4 page_export ClickDownload); [reflexivity | reflexivity |].
    now right.
  - apply (H4 page_downloading ClickSave); [reflexivity | reflexivity |].
    now left.
  - apply (H3 page_downloading); reflexivity.
  - intros q. apply (H1 page_export ClickSave). now left.
  - intros q. eapply (H2 page_downloading 4%nat);
      [cbv; reflexivity | right; reflexivity].
Defined.

End GeneratorProofs.

(** ** The dashboard *)

Module DashboardProofs.
Import Dashboard DashboardSpec.

Ltac page p := destruct p as [[apps ld del sel] mt pend lg fr].

Example mounting_fetches_the_list :
  log start = [Sent GetApplications]
  /\ loading (state start) = true
  /\ exists q,
       react start (Settle 0 (ResolvedList three)) = Some q
       /\ applications (state q) = three
       /\ loading (state q) = false.
Proof.
  split; [reflexivity |]. split; [reflexivity |].
  eexists. split; [vm_compute; reflexivity |]. split; reflexivity.
Qed.

Example a_single_delete_removes_the_record :
  exists q,
    react page_deleting (Settle 2 (Resolved null)) = Some q
    /\ map id (applications (state page_deleting))
       = [PNum 1; PNum 2; PNum 3]
    /\ map id (applications (state q)) = [PNum 2; PNum 3]
    /\ deleteId (state q) = PNull.
Proof. eexists. split; [vm_compute; reflexivity |]. repeat split. Qed.

(** C10: when the delete call for the pending id is rejected, the
    displayed list is left as it is, one error message is shown and the
    pending id is cleared, which closes the dialog. *)
Theorem C10_failed_delete_keeps_the_list
  (p : Page) (id : nat) (k : Suspended) (body : value) :
  mounted p = true ->
  assoc id (pending p) = Some k ->
  handler k = DeleteApplication ->
  exists q, react p (Settle id (Rejected body)) = Some q
    /\ applications (state q) = applications (state p)
    /\ deleteId (state q) = PNull
    /\ dialog_open (state q) = false
    /\ log q = ToastError (str "Fehler beim Löschen")
               :: Received (request k) (Rejected body) :: log p.
Proof.
  intros Hm Hp Hk. page p. cbn in Hm, Hp. subst mt.
  unfold react. cbn. rewrite Hp. unfold settled. rewrite Hk.
  eexists; split; [reflexivity |]. cbn. repeat split.
Qed.

Lemma C10_witness :
  exists k, assoc 2 (pending page_deleting) = Some k
    /\ exists q, react page_deleting (Settle 2 (Rejected refusal)) = Some q
    /\ applications (state q) = applications (state page_deleting)
    /\ deleteId (state q) = PNull
    /\ dialog_open (state q) = false
    /\ log q = ToastError (str "Fehler beim Löschen")
               :: Received (request k) (Rejected refusal)
               :: log page_deleting.
Proof.
  eexists. split; [cbv; reflexivity |].
  eapply (C10_failed_delete_keeps_the_list page_deleting 2);
    [reflexivity | cbv; reflexivity | reflexivity].
Defined.

(** *** Deleting *)

(** Confirming with a pending id sends exactly one delete request, for
    that id, and suspends one handler that captured the rendered state. *)
Lemma confirm_sends_one_delete (p : Page) :
  mounted p = true ->
  dialog_open (state p) = true ->
  react p ClickConfirmDelete
  = Some {| state := state p; mounted := true;
            pending :=
              (fresh p,
               mkSuspended DeleteApplication (state p)
                 (DeleteApplicationById (deleteId (state p))))
              :: pending p;
            log := Sent (DeleteApplicationById (deleteId (state p))) :: log p;
            fresh := S (fresh p) |}.
Proof.
  intros Hm Hd. page p. unfold dialog_open in Hd. cbn in Hm, Hd. subst mt.
  unfold react, on_event, deleteApplication, dialog_open. cbn.
  rewrite Hd. reflexivity.
Qed.

Lemma strict_eq_refl (i : prim) : strict_eq i i = true.
Proof. unfold strict_eq. destruct (prim_eq_dec i i); congruence. Qed.

Lemma strict_eq_neq (i j : prim) : i <> j -> strict_eq i j = false.
Proof. unfold strict_eq. destruct (prim_eq_dec i j); congruence. Qed.

Lemma filter_keeps_other_ids (l : list Application) (i : prim) :
  ~ In i (map id l) ->
  filter (fun app => negb (strict_eq (id app) i)) l = l.
Proof.
  induction l as [| x l IH]; intros H; [reflexivity |].
  cbn in H |- *. rewrite strict_eq_neq by intuition. cbn.
  f_equal. apply IH. intuition.
Qed.

(** What the filter of [deleteApplication] removes from a list with
    pairwise distinct ids: the one record with the id, nothing else. *)
Lemma filter_removes_the_record (l : list Application) (a : Application) :
  NoDup (map id l) -> In a l ->
  exists before after,
    l = before ++ a :: after
    /\ filter (fun app => negb (strict_eq (id app) (id a))) l
       = before ++ after.
Proof.
  induction l as [| x l IH]; intros ND HIn; [destruct HIn |].
  cbn in ND. inversion ND as [| ? ? Hx ND']. subst.
  destruct HIn as [-> | HIn].
  - exists [], l. split; [reflexivity |].
    cbn. rewrite strict_eq_refl. cbn. now apply filter_keeps_other_ids.
  - destruct (IH ND' HIn) as (before & after & E & F).
    exists (x :: before), after. split; [cbn; now f_equal |].
    cbn. rewrite strict_eq_neq.
    + cbn. now f_equal.
    + intros E'. apply Hx. rewrite E'. now apply in_map.
Qed.

(** A successful delete answer, arriving while the displayed list is
    still the one its handler captured, takes exactly the record with
    the pending id out of a list with pairwise distinct ids. *)
Lemma delete_success_without_overlap
  (p : Page) (n : nat) (k : Suspended) (a : Application) (data : value) :
  mounted p = true ->
  assoc n (pending p) = Some k ->
  handler k = DeleteApplication ->
  applications (closure k) = applications (state p) ->
  NoDup (map id (applications (state p))) ->
  In a (applications (state p)) ->
  deleteId (closure k) = id a ->
  exists q before after,
    react p (Settle n (Resolved data)) = Some q
    /\ applications (state p) = before ++ a :: after
    /\ applications (state q) = before ++ after.
Proof.
  intros Hm Hp Hk Hc ND HIn Hd.
  destruct (filter_removes_the_record _ _ ND HIn) as (before & after & E & F).
  page p. cbn in Hm, Hp, E, F. subst mt.
  unfold react. cbn. rewrite Hp. unfold settled. rewrite Hk.
  eexists _, before, after. split; [reflexivity |]. split; [exact E |].
  cbn. rewrite Hc, Hd. cbn. exact F.
Qed.

(** C4: what the code does when two confirmed deletions overlap.  The
    list shows records 1, 2, 3; record 1 is deleted (call 2) and, before
    the answer, record 2 (call 5); one delete request is sent for each.
    The first answer displays 2, 3.  The second answer displays 1, 3:
    it filters the list its handler captured, so the record deleted
    first is displayed again. *)
Theorem C4_overlapping_deletes_redisplay_a_deleted_record :
  exists p p' p'',
    run start overlapping_deletes = Some p
    /\ map id (applications (state p)) = [PNum 1; PNum 2; PNum 3]
    /\ filter (fun e => match e with Sent _ => true | _ => false end) (log p)
       = [Sent (DeleteApplicationById (PNum 2));
          Sent (DeleteApplicationById (PNum 1));
          Sent GetApplications]
    /\ react p (Settle 2 (Resolved null)) = Some p'
    /\ map id (applications (state p')) = [PNum 2; PNum 3]
    /\ react p' (Settle 5 (Resolved null)) = Some p''
    /\ map id (applications (state p'')) = [PNum 1; PNum 3].
Proof.
  eexists _, _, _.
  split; [vm_compute; reflexivity |].
  split; [reflexivity |].
  split; [reflexivity |].
  split; [vm_compute; reflexivity |].
  split; [reflexivity |].
  split; [vm_compute; reflexivity | reflexivity].
Qed.

(** *** What the dashboard sends *)

Lemma listed_cons e l app : listed l app -> listed (e :: l) app.
Proof. intros (data & H & H'). exists data. split; [now right | exact H']. Qed.

Lemma all_listed_cons e l apps : all_listed l apps -> all_listed (e :: l) apps.
Proof. intros H app Ha. apply listed_cons. now apply H. Qed.

Lemma all_listed_here data l :
  all_listed (Received GetApplications (ResolvedList data) :: l) data.
Proof. intros app Ha. exists data. split; [now left | exact Ha]. Qed.

Lemma all_listed_filter f l apps :
  all_listed l apps -> all_listed l (filter f apps).
Proof. intros H app Ha. apply filter_In in Ha. now apply H. Qed.

Lemma all_listed_nil l : all_listed l [].
Proof. intros app []. Qed.

Lemma all_listed_In l apps app :
  all_listed l apps -> In app apps -> listed l app.
Proof. intros H. apply H. Qed.

Create HintDb dash.
#[local] Hint Resolve listed_cons all_listed_cons all_listed_here
  all_listed_filter all_listed_nil all_listed_In : dash.

Lemma dash_Inv_start : Inv start.
Proof.
  split; cbn.
  - apply all_listed_nil.
  - discriminate.
  - intros n k [[= <- <-] | []]. cbn. split; [apply all_listed_nil | auto].
  - tauto.
Qed.

Ltac cases :=
  repeat match goal with
  | H : exists _, _ |- _ => destruct H
  | H : _ /\ _ |- _ => destruct H
  | H : _ \/ _ |- _ => destruct H
  | H : (_, _) = (_, _) |- _ => inversion H; subst; clear H
  | H : Some _ = Some _ |- _ => inversion H; subst; clear H
  | H : None = Some _ |- _ => discriminate H
  | H : In _ (drop _ _) |- _ => apply drop_In in H
  | H : False |- _ => destruct H
  end.

Ltac finish :=
  split; cbn; intros; cases; subst; cbn;
  try match goal with
  | I : forall n k, In (n, k) _ -> _, H : In (_, _) _ |- _ =>
      destruct (I _ _ H)
  end;
  eauto 8 with dash; try discriminate;
  try (split; eauto 8 with dash; discriminate).

Lemma dash_Inv_react p e q : Inv p -> react p e = Some q -> Inv q.
Proof.
  intros HI H. page p. destruct HI as [I1 I2 I3 I4].
  cbn in I1, I2, I3, I4.
  destruct e as [index | index | index | | | | | | | | n o];
    unfold react in H; cbn in H.
  all: try (destruct mt; [| discriminate H]).
  all: try (destruct (nth_error apps index) as [app |] eqn:N;
            [| discriminate H];
            destruct (grid_shown _); [| discriminate H];
            apply nth_error_In in N).
  all: try (destruct (dialog_open _); [| discriminate H]).
  all: try (destruct (preview_open _); [| discriminate H]).
  all: try (destruct sel as [app |]; [| discriminate H]).
  all: try (injection H as <-).
  - (* ClickView *) finish.
  - (* ClickCardDownload *) finish.
  - (* ClickTrash *) finish.
  - (* DialogOpenChange *) finish.
  - (* ClickConfirmDelete *)
    unfold deleteApplication. destruct (negb _); finish.
  - (* ClosePreview *) finish.
  - (* ClickModalDownload *) finish.
  - (* ClickLogo *) finish.
  - (* ClickNewApplication *) finish.
  - (* ClickCreateFirst *)
    destruct apps; [| discriminate H]. destruct ld; [discriminate H |].
    injection H as <-. finish.
  - (* Settle *)
    destruct (assoc n pend) as [k |] eqn:A; [| discriminate H].
    apply assoc_In in A. destruct (I3 _ _ A) as [L W].
    destruct k as [h c r]. unfold settled in H. cbn in H, L, W.
    destruct h.
    + rewrite (W eq_refl) in *.
      destruct o; cbn in H; try discriminate H; injection H as <-;
        destruct mt; finish.
    + injection H as <-. destruct o, mt; finish.
    + destruct o; cbn in H; try discriminate H; injection H as <-;
        destruct mt; finish.
Qed.

Lemma dash_Inv_run es : forall p q, Inv p -> run p es = Some q -> Inv q.
Proof.
  induction es as [| e es IH]; cbn; intros p q HI H.
  - now injection H as <-.
  - destruct (react p e) as [p' |] eqn:R; [| discriminate H].
    eapply IH; [| exact H]. eapply dash_Inv_react; eassumption.
Qed.

Lemma all_sent_ok_split l :
  all_sent_ok l ->
  forall newer r older, l = newer ++ Sent r :: older -> sent_ok r older.
Proof.
  intros V newer. revert l V.
  induction newer as [| e newer IH]; intros l V r older ->.
  - cbn in V. tauto.
  - cbn in V. eapply IH; [| reflexivity].
    destruct e; cbn in V; tauto.
Qed.

(** Every PDF request of a reachable dashboard carries the body built
    from a record the backend listed before. *)
Lemma reachable_pdf_body p :
  reachable p ->
  forall newer b older,
    log p = newer ++ Sent (PostGeneratePdf b) :: older ->
    exists app, listed older app /\ b = body_of app.
Proof.
  intros [es R] newer b older E.
  destruct (dash_Inv_run es start p dash_Inv_start R) as [_ _ _ V].
  exact (all_sent_ok_split _ V _ _ _ E).
Qed.

(** A rejected call shows exactly one message, the handler's own. *)
Lemma dash_rejected_shows_one_message p n k body :
  assoc n (pending p) = Some k ->
  exists q, react p (Settle n (Rejected body)) = Some q
    /\ log q = ToastError (failure_message (handler k))
               :: Received (request k) (Rejected body) :: log p.
Proof.
  intros Hp. page p. cbn in Hp. unfold react. cbn. rewrite Hp.
  destruct k as [h c r]. unfold settled. cbn [handler closure request].
  destruct h; cbn; (eexists; split; [reflexivity |]);
    destruct mt; reflexivity.
Qed.

End DashboardProofs.

(** ** Both pages *)

(** C1, as stated, fails: the dashboard's PDF download sends the empty
    object as job analysis (and as resume data), which is not the job
    analysis of any record the backend listed. *)
Lemma C1_counterexample :
  exists p,
    Dashboard.run Dashboard.start DashboardSpec.to_card_download = Some p
    /\ ~ DashboardSpec.forwards_verbatim (Dashboard.log p).
Proof.
  eexists. split; [vm_compute; reflexivity |].
  intros H. specialize (H [] _ _ eq_refl).
  destruct H as [(app & (data & Hd & Ha) & E) _].
  destruct Hd as [Hd | [Hd | []]]; [| discriminate Hd].
  injection Hd as <-.
  destruct Ha as [<- | [<- | [<- | []]]]; discriminate E.
Qed.

(** C1, amended: on every reachable generator page, each request that
    carries a job analysis and resume data carries the payloads of
    earlier successful analysis answers, unchanged; on every reachable
    dashboard page, each PDF request carries the empty object as job
    analysis and as resume data, and the job URL, cover letter, company
    name and job title of a record listed before. *)
Theorem C1_generator_forwards_dashboard_sends_placeholders :
  (forall p, Generator.reachable p ->
     GeneratorSpec.forwards_verbatim (Generator.log p))
  /\ (forall p, Dashboard.reachable p ->
        forall newer b older,
          Dashboard.log p = newer ++ Sent (PostGeneratePdf b) :: older ->
          job_analysis b = VObj [] /\ resume_data b = VObj []
          /\ exists app,
               DashboardSpec.listed older app
               /\ job_url b = Dashboard.job_url app
               /\ cover_letter b = Dashboard.cover_letter app
               /\ company_name b = Dashboard.company_name app
               /\ job_title b = Dashboard.job_title app).
Proof.
  split.
  - exact GeneratorProofs.reachable_forwards_verbatim.
  - intros p R newer b older E.
    destruct (DashboardProofs.reachable_pdf_body p R _ _ _ E)
      as (app & L & ->).
    cbn. repeat split. exists app. repeat split. exact L.
Qed.

Lemma C1_witness :
  GeneratorSpec.forwarded
    (PostGenerateCoverLetter GeneratorSpec.acme GeneratorSpec.jane)
    (tl (Generator.log GeneratorSpec.page_generating))
  /\ (let b := Dashboard.body_of (DashboardSpec.record 1 "ACME") in
      job_analysis b = VObj [] /\ resume_data b = VObj []
      /\ exists app,
           DashboardSpec.listed
             [Received GetApplications
                (Dashboard.ResolvedList DashboardSpec.three);
              Sent GetApplications] app
           /\ job_url b = Dashboard.job_url app
           /\ cover_letter b = Dashboard.cover_letter app
           /\ company_name b = Dashboard.company_name app
           /\ job_title b = Dashboard.job_title app).
Proof.
  destruct C1_generator_forwards_dashboard_sends_placeholders as [G D].
  split.
  - apply (G GeneratorSpec.page_generating) with (newer := []).
    + exists (GeneratorSpec.to_upload_done ++ [Generator.ClickGenerate]).
      vm_compute. reflexivity.
    + reflexivity.
  - apply (D (DashboardSpec.page_after DashboardSpec.to_card_download))
      with (newer := []).
    + exists DashboardSpec.to_card_download. vm_compute. reflexivity.
    + reflexivity.
Defined.

(** C3, as stated, fails: the list call, the delete call and the PDF
    download are each rejected with a body that carries a message, and
    each shows its own fixed message instead. *)
Lemma C3_counterexample :
  opt_prop DashboardSpec.refusal "detail" = str "Not authenticated"
  /\ (exists q,
        Dashboard.react Dashboard.start
          (Dashboard.Settle 0 (Dashboard.Rejected DashboardSpec.refusal))
        = Some q
        /\ hd_error (Dashboard.log q)
           = Some (ToastError (str "Fehler beim Laden der Bewerbungen")))
  /\ (exists q,
        Dashboard.react DashboardSpec.page_deleting
          (Dashboard.Settle 2 (Dashboard.Rejected DashboardSpec.refusal))
        = Some q
        /\ hd_error (Dashboard.log q)
           = Some (ToastError (str "Fehler beim Löschen")))
  /\ (exists q,
        Generator.react GeneratorSpec.page_downloading
          (Generator.Settle 4 (Generator.Rejected DashboardSpec.refusal))
        = Some q
        /\ hd_error (Generator.log q)
           = Some (ToastError (str "Fehler beim PDF-Download"))).
Proof.
  split; [reflexivity |].
  split; [| split]; eexists; (split; [vm_compute; reflexivity |]);
    reflexivity.
Qed.

(** C3, amended: every rejected call shows exactly one message.  For
    the job analysis, the resume analysis and the generation it is the
    [detail] of the response body when that is present and truthy, else
    the handler's generic message; for the PDF download and the save of
    the generator, and for the list, delete and PDF calls of the
    dashboard, it is always the handler's fixed message. *)
Theorem C3_each_rejected_call_shows_one_message :
  (forall p id k body,
     assoc id (Generator.pending p) = Some k ->
     exists q,
       Generator.react p (Generator.Settle id (Generator.Rejected body))
       = Some q
       /\ Generator.log q
          = ToastError
              (GeneratorSpec.failure_message (Generator.handler k) body)
            :: Received (Generator.request k) (Generator.Rejected body)
            :: Generator.log p)
  /\ (forall h body,
        h = Generator.AnalyzeJob \/ h = Generator.HandleFileUpload
        \/ h = Generator.GenerateCoverLetter ->
        if truthy (opt_prop body "detail")
        then GeneratorSpec.failure_message h body = opt_prop body "detail"
        else exists generic,
               GeneratorSpec.failure_message h body = str generic)
  /\ (forall body,
        GeneratorSpec.failure_message Generator.DownloadPdf body
        = str "Fehler beim PDF-Download"
        /\ GeneratorSpec.failure_message Generator.SaveApplication body
           = str "Fehler beim Speichern")
  /\ (forall p id k body,
        assoc id (Dashboard.pending p) = Some k ->
        exists q,
          Dashboard.react p (Dashboard.Settle id (Dashboard.Rejected body))
          = Some q
          /\ Dashboard.log q
             = ToastError (DashboardSpec.failure_message (Dashboard.handler k))
               :: Received (Dashboard.request k) (Dashboard.Rejected body)
               :: Dashboard.log p).
Proof.
  split; [exact GeneratorProofs.rejected_shows_one_message |].
  split; [| split; [| exact DashboardProofs.dash_rejected_shows_one_message]].
  - intros h body [-> | [-> | ->]]; cbn; unfold or_else;
      destruct (truthy (opt_prop body "detail")); eauto.
  - intros body. split; reflexivity.
Qed.

Lemma C3_witness :
  (exists k,
     assoc 1 (Generator.pending GeneratorSpec.page_analysing)
     = Some k
     /\ exists q,
          Generator.react GeneratorSpec.page_analysing
            (Generator.Settle 1 (Generator.Rejected DashboardSpec.refusal))
          = Some q
          /\ Generator.log q
             = ToastError
                 (GeneratorSpec.failure_message (Generator.handler k)
                    DashboardSpec.refusal)
               :: Received (Generator.request k)
                    (Generator.Rejected DashboardSpec.refusal)
               :: Generator.log GeneratorSpec.page_analysing)
  /\ GeneratorSpec.failure_message Generator.AnalyzeJob DashboardSpec.refusal
     = str "Not authenticated"
  /\ (exists k,
        assoc 2 (Dashboard.pending DashboardSpec.page_deleting)
        = Some k
        /\ exists q,
             Dashboard.react DashboardSpec.page_deleting
               (Dashboard.Settle 2 (Dashboard.Rejected DashboardSpec.refusal))
             = Some q
             /\ Dashboard.log q
                = ToastError
                    (DashboardSpec.failure_message (Dashboard.handler k))
                  :: Received (Dashboard.request k)
                       (Dashboard.Rejected DashboardSpec.refusal)
                  :: Dashboard.log DashboardSpec.page_deleting).
Proof.
  destruct C3_each_rejected_call_shows_one_message as (G & M & _ & D).
  split; [| split].
  - eexists. split; [cbv; reflexivity |].
    apply (G GeneratorSpec.page_analysing 1%nat). cbv. reflexivity.
  - apply (M Generator.AnalyzeJob DashboardSpec.refusal). now left.
  - eexists. split; [cbv; reflexivity |].
    apply (D DashboardSpec.page_deleting 2%nat). cbv. reflexivity.
Defined.

(** ** More on the generator flow *)

Module GeneratorMore.
Import Generator GeneratorSpec GeneratorView GeneratorShape.

Ltac page p :=
  destruct p as [[step ld pr pt url ja rf rd cl] mt pend ints lg fr].

Ltac split_guard G :=
  repeat match type of G with
  | (_ && _)%bool = true =>
      let G1 := fresh "G" in
      apply andb_true_iff in G as [G1 G]; try apply Z.eqb_eq in G1
  | (_ =? _) = true => apply Z.eqb_eq in G
  end.

Ltac open_user H mt :=
  let G := fresh "G" in
  destruct (mt && _)%bool eqn:G; [| discriminate H];
  injection H as <-; destruct mt; [| discriminate G]; cbn in G;
  split_guard G.

(** The transitions of the page, one goal for each way an event can go;
    [leaf] is run on each. *)
Ltac transitions e H mt leaf :=
  destruct e as [text | | files | | | | | | | | tid | sid o];
  unfold react in H; cbn in H;
  [ open_user H mt; leaf
  | open_user H mt; unfold analyzeJob; cbn;
    match goal with
    | |- context [String.eqb ?u ""] =>
        let U := fresh "U" in destruct (String.eqb u "") eqn:U
    end; leaf
  | open_user H mt; destruct files as [| file files];
    [ leaf
    | unfold handleFileUpload;
      match goal with
      | |- context [negb ?b] => destruct (negb b)
      end; leaf ]
  | open_user H mt; leaf
  | open_user H mt; leaf
  | open_user H mt; leaf
  | open_user H mt; leaf
  | open_user H mt; leaf
  | open_user H mt; leaf
  | open_user H mt; leaf
  | match type of H with
    | context [assoc ?i ?l] =>
        let T := fresh "T" in
        let TI := fresh "TI" in
        destruct (assoc i l) as [inc |] eqn:T; [| discriminate H];
        injection H as <-; pose proof (assoc_In _ _ _ T) as TI
    end;
    destruct mt; leaf
  | match type of H with
    | context [assoc ?i ?l] =>
        let A := fresh "A" in
        let AI := fresh "AI" in
        destruct (assoc i l) as [k |] eqn:A; [| discriminate H];
        injection H as <-; pose proof (assoc_In _ _ _ A) as AI;
        destruct k as [h c r]
    end;
    unfold settled; cbn [handler closure];
    unfold generateCoverLetter_settled;
    match goal with
    | |- context [match ?x with AnalyzeJob => _ | _ => _ end] => destruct x
    end;
    destruct o as [data | body];
    try match goal with
        | |- context [prop ?d "cover_letter"] =>
            let P := fresh "P" in
            destruct (prop d "cover_letter") as [found |] eqn:P
        end;
    destruct mt; leaf ].

Lemma Ranges_start : Ranges start.
Proof. split; cbn; [lia | lia | intros id inc []]. Qed.

Ltac ranges_leaf :=
  split; cbn;
  [ lia
  | first
      [ lia
      | match goal with
        | R : forall id inc, In (id, inc) ?l -> _, TI : In (_, _) ?l |- _ =>
            destruct (R _ _ TI); lia
        end ]
  | intros ? ? HIn;
    try match type of HIn with
        | In _ (drop _ _) => apply drop_In in HIn
        end;
    try (destruct HIn as [[= <- <-] | HIn]); eauto ].

Lemma Ranges_react p e q : Ranges p -> react p e = Some q -> Ranges q.
Proof.
  intros HI H. page p. destruct HI as [R1 R2 R3]. cbn in R1, R2, R3.
  transitions e H mt ranges_leaf.
Qed.

Lemma Ranges_run es : forall p q, Ranges p -> run p es = Some q -> Ranges q.
Proof.
  induction es as [| e es IH]; cbn; intros p q HI H.
  - now injection H as <-.
  - destruct (react p e) as [p' |] eqn:R; [| discriminate H].
    eapply IH; [| exact H]. eapply Ranges_react; eassumption.
Qed.

(** X1: on every reachable page the step is one of 1, 2, 3, 4, so the
    title line finds its entry in the [steps] table, and exactly the
    indicator of the current step is active, those before it completed
    and those after it pending. *)
Theorem X1_step_stays_in_the_table (p : Page) :
  reachable p ->
  1 <= currentStep (state p) <= 4
  /\ (exists title,
        step_title (state p) = Some title
        /\ In (currentStep (state p), title) steps)
  /\ indicators (state p)
     = repeat Completed (Z.to_nat (currentStep (state p) - 1))
       ++ Active :: repeat Pending (Z.to_nat (4 - currentStep (state p))).
Proof.
  intros [es R].
  destruct (Ranges_run es start p Ranges_start R) as [R1 _ _].
  split; [exact R1 |].
  assert (C : currentStep (state p) = 1 \/ currentStep (state p) = 2
              \/ currentStep (state p) = 3 \/ currentStep (state p) = 4)
    by lia.
  unfold step_title, indicators, mark, at_index.
  destruct C as [-> | [-> | [-> | ->]]]; cbn;
    (split; [eexists; split; [reflexivity | cbn; tauto] | reflexivity]).
Qed.

Lemma X1_witness :
  1 <= currentStep (state page_generating) <= 4
  /\ (exists title,
        step_title (state page_generating) = Some title
        /\ In (currentStep (state page_generating), title) steps)
  /\ indicators (state page_generating)
     = repeat Completed (Z.to_nat (currentStep (state page_generating) - 1))
       ++ Active
          :: repeat Pending (Z.to_nat (4 - currentStep (state page_generating))).
Proof.
  apply (X1_step_stays_in_the_table page_generating).
  exists (to_upload_done ++ [ClickGenerate]). vm_compute. reflexivity.
Defined.

(** X2: on every reachable page the progress value lies between 0 and
    90: the timers stop at 90, and the 100 a handler sets on success is
    put back to 0 by its [finally] in the same run, before any other
    event can happen. *)
Theorem X2_progress_stays_below_completion (p : Page) :
  reachable p -> 0 <= progress (state p) <= 90.
Proof.
  intros [es R].
  now destruct (Ranges_run es start p Ranges_start R) as [_ R2 _].
Qed.

Lemma X2_witness : 0 <= progress (state page_generating) <= 90.
Proof.
  apply (X2_progress_stays_below_completion page_generating).
  exists (to_upload_done ++ [ClickGenerate]). vm_compute. reflexivity.
Defined.

(** *** Calls and their timers *)

Lemma drop_other {A} (i j : nat) (a : A) (l : list (nat * A)) :
  In (i, a) l -> i <> j -> In (i, a) (drop j l).
Proof.
  induction l as [| [n b] l IH]; cbn; [tauto |].
  intros [[= -> ->] | H] N.
  - destruct (Nat.eqb j i) eqn:E; [apply Nat.eqb_eq in E; congruence |].
    now left.
  - destruct (Nat.eqb j n); [| right]; now apply IH.
Qed.

Lemma drop_not_same {A} (i j : nat) (a : A) (l : list (nat * A)) :
  In (i, a) (drop j l) -> i <> j.
Proof.
  induction l as [| [n b] l IH]; cbn; [tauto |].
  destruct (Nat.eqb j n) eqn:E; [exact IH |].
  intros [[= -> ->] | H]; [| now apply IH].
  apply Nat.eqb_neq in E. congruence.
Qed.

Lemma drop_fst_In {A} (j n : nat) (l : list (nat * A)) :
  In n (map fst (drop j l)) -> In n (map fst l).
Proof.
  intros H. apply in_map_iff in H as [[i a] [<- H]].
  apply drop_In in H. now apply (in_map fst) in H.
Qed.

Lemma drop_distinct {A} (j : nat) (l : list (nat * A)) :
  NoDup (map fst l) -> NoDup (map fst (drop j l)).
Proof.
  induction l as [| [n b] l IH]; cbn; intros ND; [constructor |].
  inversion ND as [| ? ? Hn ND']. subst.
  destruct (Nat.eqb j n); [now apply IH |].
  cbn. constructor; [| now apply IH].
  intros H. apply Hn. now apply drop_fst_In in H.
Qed.

Lemma assoc_drop_other {A} (i j : nat) (l : list (nat * A)) :
  i <> j -> assoc i (drop j l) = assoc i l.
Proof.
  intros N. induction l as [| [n b] l IH]; cbn; [reflexivity |].
  destruct (Nat.eqb j n) eqn:E.
  - apply Nat.eqb_eq in E. subst n.
    destruct (Nat.eqb i j) eqn:E'; [apply Nat.eqb_eq in E'; congruence |].
    exact IH.
  - cbn. destruct (Nat.eqb i n); [reflexivity | exact IH].
Qed.

Lemma assoc_drop_same {A} (j : nat) (l : list (nat * A)) :
  assoc j (drop j l) = None.
Proof.
  induction l as [| [n b] l IH]; cbn; [reflexivity |].
  destruct (Nat.eqb j n) eqn:E; [exact IH |]. cbn. now rewrite E.
Qed.

Lemma distinct_same_call {A} (i : nat) (a b : A) (l : list (nat * A)) :
  NoDup (map fst l) -> In (i, a) l -> In (i, b) l -> a = b.
Proof.
  induction l as [| [n c] l IH]; cbn; [tauto |].
  intros ND. inversion ND as [| ? ? Hn ND']. subst.
  intros [[= -> ->] | Ha] [[= <-] | Hb]; try reflexivity.
  - elim Hn. now apply (in_map fst) in Hb.
  - elim Hn. now apply (in_map fst) in Ha.
  - now apply IH.
Qed.

Lemma fresh_not_pending {A} (fr : nat) (l : list (nat * A)) :
  (forall id k, In (id, k) l -> (id < fr)%nat) -> ~ In fr (map fst l).
Proof.
  intros C H. apply in_map_iff in H as [[i a] [E H]]. cbn in E. subst i.
  specialize (C _ _ H). lia.
Qed.

Lemma assoc_older {A} (i fr : nat) (a : A) (l : list (nat * A)) :
  (i < fr)%nat -> assoc i ((fr, a) :: l) = assoc i l.
Proof.
  intros L. cbn. destruct (Nat.eqb i fr) eqn:E; [| reflexivity].
  apply Nat.eqb_eq in E. lia.
Qed.

Lemma generating_survives (sid : nat) (ks : Suspended) pend :
  NoDup (map fst pend) ->
  In (sid, ks) pend ->
  handler ks <> GenerateCoverLetter ->
  (exists id k, In (id, k) pend /\ handler k = GenerateCoverLetter) ->
  exists id k, In (id, k) (drop sid pend) /\ handler k = GenerateCoverLetter.
Proof.
  intros ND Hs Hh (id & k & Hk & E). exists id, k. split; [| exact E].
  apply drop_other; [exact Hk |]. intros ->.
  apply Hh. now rewrite (distinct_same_call _ _ _ _ ND Hs Hk).
Qed.

Lemma Calls_start : Calls start.
Proof.
  split; cbn; try tauto; try discriminate.
  constructor.
Qed.

(** Brings an entry of the new table back to the old one. *)
Ltac entry HIn :=
  try (let N := fresh "N" in
       pose proof (drop_not_same _ _ _ _ HIn) as N; apply drop_In in HIn);
  try (destruct HIn as [HIn | HIn];
       [inversion HIn; subst; clear HIn |]).

Ltac known :=
  repeat match goal with
  | C : forall id k, In (id, k) ?l -> (id < _)%nat, H : In (?i, _) ?l |- _ =>
      lazymatch goal with
      | _ : (i < _)%nat |- _ => fail
      | _ => pose proof (C _ _ H)
      end
  end.

Ltac calls_leaf :=
  split; cbn;
  [ intros ? ? HIn; entry HIn; known; lia
  | intros ? ? HIn; entry HIn; known; lia
  | try (constructor; [now apply fresh_not_pending |]);
    try apply drop_distinct; assumption
  | intros ? ? ? HIn HT; entry HIn; cbn in HT; try discriminate HT;
    known;
    try (injection HT as <-);
    rewrite ?assoc_drop_other by assumption;
    try match goal with
        | |- context [Nat.eqb ?a ?b] =>
            replace (Nat.eqb a b) with false
              by (symmetry; apply Nat.eqb_neq; lia)
        end;
    try (cbn; rewrite Nat.eqb_refl; reflexivity);
    eauto
  | intros HM HS; try discriminate HM; try discriminate HS; try lia;
    try (eapply generating_survives;
         [eassumption | eassumption | cbn; discriminate | eauto]);
    eauto 6 ].

Lemma Calls_react p e q : Calls p -> react p e = Some q -> Calls q.
Proof.
  intros HI H. page p. destruct HI as [C1 C2 C3 C4 C5].
  cbn in C1, C2, C3, C4, C5.
  transitions e H mt calls_leaf.
Qed.

Lemma Calls_run es : forall p q, Calls p -> run p es = Some q -> Calls q.
Proof.
  induction es as [| e es IH]; cbn; intros p q HI H.
  - now injection H as <-.
  - destruct (react p e) as [p' |] eqn:R; [| discriminate H].
    eapply IH; [| exact H]. eapply Calls_react; eassumption.
Qed.

(** *** Where the cover letter comes from *)

Lemma letter_received_cons e l v :
  letter_received l v -> letter_received (e :: l) v.
Proof. intros (ja & rd & data & H & P). exists ja, rd, data. split; [now right | exact P]. Qed.

Lemma letter_received_here ja rd data v l :
  prop data "cover_letter" = Some v ->
  letter_received (Received (PostGenerateCoverLetter ja rd) (Resolved data) :: l) v.
Proof. intros P. exists ja, rd, data. split; [now left | exact P]. Qed.

Create HintDb letters.
#[local] Hint Resolve letter_received_cons letter_received_here : letters.

Lemma Letters_start : Letters start.
Proof. split; cbn; try tauto; discriminate. Qed.

Ltac letters_leaf :=
  try match goal with
      | L : forall id k, In (id, k) ?l ->
              handler k = GenerateCoverLetter -> _,
        AI : In (_, ?k) ?l |- _ =>
          let E := fresh "E" in
          destruct (L _ _ AI eq_refl) as (? & ? & E); cbn in E; subst
      end;
  split; cbn;
  [ intros HS; try discriminate HS; try lia; eauto 8 with letters
  | first
      [ solve [right; eauto 8 with letters]
      | match goal with
        | L : _ \/ _ |- _ =>
            destruct L; [left; assumption | right; eauto 8 with letters]
        end ]
  | repeat split; eauto 8 with letters
  | intros ? ? HIn HH; entry HIn; cbn in HH; try discriminate HH;
    eauto; do 2 eexists; reflexivity ].

Lemma Letters_react p e q : Letters p -> react p e = Some q -> Letters q.
Proof.
  intros HI H. page p. destruct HI as [L1 L2 L3 L4].
  cbn in L1, L2, L3, L4.
  transitions e H mt letters_leaf.
Qed.

Lemma Letters_run es : forall p q, Letters p -> run p es = Some q -> Letters q.
Proof.
  induction es as [| e es IH]; cbn; intros p q HI H.
  - now injection H as <-.
  - destruct (react p e) as [p' |] eqn:R; [| discriminate H].
    eapply IH; [| exact H]. eapply Letters_react; eassumption.
Qed.

Lemma letters_forwarded_split l :
  letters_forwarded l ->
  forall newer r older, l = newer ++ Sent r :: older ->
    letter_forwarded r older.
Proof.
  intros V newer. revert l V.
  induction newer as [| e newer IH]; intros l V r older ->.
  - cbn in V. tauto.
  - cbn in V. eapply IH; [| reflexivity].
    destruct e; cbn in V; tauto.
Qed.

Lemma In_assoc {A} (i : nat) (a : A) (l : list (nat * A)) :
  NoDup (map fst l) -> In (i, a) l -> assoc i l = Some a.
Proof.
  induction l as [| [n b] l IH]; cbn; [tauto |].
  intros ND. inversion ND as [| ? ? Hn ND']. subst.
  intros [[= -> ->] | H].
  - now rewrite Nat.eqb_refl.
  - destruct (Nat.eqb i n) eqn:E; [| now apply IH].
    apply Nat.eqb_eq in E. subst n. elim Hn. now apply (in_map fst) in H.
Qed.

(** *** The timers *)

Lemma Orphan_react t d p e q :
  Orphan t d p -> react p e = Some q -> Orphan t d q.
Proof.
  intros HI H. page p. destruct HI as [O1 O2 O3]. cbn in O1, O2, O3.
  transitions e H mt
    ltac:(split; cbn;
          [ rewrite ?assoc_drop_other
              by (intros ->; eapply O2; eassumption);
            try match goal with
                | |- context [Nat.eqb ?a ?b] =>
                    replace (Nat.eqb a b) with false
                      by (symmetry; apply Nat.eqb_neq; lia)
                end;
            assumption
          | intros ? HIn; entry HIn; try lia; eapply O2; eassumption
          | lia ]).
Qed.

Lemma Orphan_run id inc es :
  forall p q, Orphan id inc p -> run p es = Some q -> Orphan id inc q.
Proof.
  induction es as [| e es IH]; cbn; intros p q HI H.
  - now injection H as <-.
  - destruct (react p e) as [p' |] eqn:R; [| discriminate H].
    eapply IH; [| exact H]. eapply Orphan_react; eassumption.
Qed.

(** X3: the progress timer of an analysis, upload or generation call is
    cleared when the call is fulfilled and only then.  When the call is
    rejected its timer stays registered, and nothing that happens on
    the page afterwards removes it: it can tick for ever. *)
Theorem X3_the_timer_of_a_rejected_call_is_never_cleared
  (p : Page) (id : nat) (k : Suspended) (inc : Z) :
  reachable p ->
  assoc id (pending p) = Some k ->
  timer_of (handler k) = Some inc ->
  (forall data, exists q,
     react p (Settle id (Resolved data)) = Some q
     /\ assoc id (intervals q) = None)
  /\ (forall body, exists q,
        react p (Settle id (Rejected body)) = Some q
        /\ forall es r, run q es = Some r ->
             assoc id (intervals r) = Some inc
             /\ react r (Tick id) <> None).
Proof.
  intros [es0 R] Hp Ht.
  destruct (Calls_run es0 start p Calls_start R) as [C1 _ C3 C4 _].
  pose proof (assoc_In _ _ _ Hp) as HIn.
  pose proof (C4 _ _ _ HIn Ht) as Ti. pose proof (C1 _ _ HIn) as Fr.
  clear R C1 C4. page p. cbn in Hp, HIn, Ti, Fr, C3.
  destruct k as [h c r]. cbn in Ht.
  split.
  - intros data. unfold react. cbn. rewrite Hp.
    eexists; split; [reflexivity |].
    unfold settled, generateCoverLetter_settled. cbn [handler closure].
    destruct h; try discriminate Ht;
      try destruct (prop data "cover_letter");
      destruct mt; cbn; apply assoc_drop_same.
  - intros body. unfold react. cbn. rewrite Hp.
    eexists; split; [reflexivity |].
    intros es r0 Hr.
    assert (O : Orphan id inc
                  (exec (settled id (mkSuspended h c r) (Rejected body))
                     (take id (mkSuspended h c r) (Rejected body)
                        (mkPage (mkState step ld pr pt url ja rf rd cl)
                           mt pend ints lg fr)))).
    { unfold settled. cbn [handler closure].
      destruct h; try discriminate Ht; destruct mt;
        (split; cbn;
         [ exact Ti
         | intros k' Hk; apply drop_not_same in Hk; now apply Hk
         | exact Fr ]). }
    destruct (Orphan_run _ _ es _ _ O Hr) as [O1 _ _].
    split; [exact O1 |]. unfold react. rewrite O1. discriminate.
Qed.

Lemma X3_witness :
  (forall data, exists q,
     react page_generating (Settle 3 (Resolved data)) = Some q
     /\ assoc 3 (intervals q) = None)
  /\ (forall body, exists q,
        react page_generating (Settle 3 (Rejected body)) = Some q
        /\ forall es r, run q es = Some r ->
             assoc 3 (intervals r) = Some 5
             /\ react r (Tick 3) <> None).
Proof.
  eapply (X3_the_timer_of_a_rejected_call_is_never_cleared
            page_generating 3).
  - exists (to_upload_done ++ [ClickGenerate]). vm_compute. reflexivity.
  - cbv. reflexivity.
  - reflexivity.
Defined.

(** X4: whenever the mounted page shows the spinner of step 3, a
    generation call is outstanding, and its answer, whatever it is,
    takes the page to step 2 or to step 4: the spinner cannot be left
    spinning with nothing to end it. *)
Theorem X4_the_spinner_always_has_a_call_to_end_it (p : Page) :
  reachable p ->
  mounted p = true ->
  currentStep (state p) = 3 ->
  exists id k,
    assoc id (pending p) = Some k
    /\ handler k = GenerateCoverLetter
    /\ forall o, exists q,
         react p (Settle id o) = Some q
         /\ (currentStep (state q) = 2 \/ currentStep (state q) = 4).
Proof.
  intros [es R] Hm Hs.
  destruct (Calls_run es start p Calls_start R) as [_ _ C3 _ C5].
  destruct (C5 Hm Hs) as (id & k & HIn & Hk).
  exists id, k. pose proof (In_assoc _ _ _ C3 HIn) as Hp.
  split; [exact Hp |]. split; [exact Hk |].
  intros o. page p. cbn in Hm, Hp. subst mt.
  unfold react. cbn. rewrite Hp. eexists; split; [reflexivity |].
  unfold settled. rewrite Hk. unfold generateCoverLetter_settled.
  destruct o as [data | body]; [destruct (prop data "cover_letter") |];
    cbn; auto.
Qed.

Lemma X4_witness :
  exists id k,
    assoc id (pending page_generating) = Some k
    /\ handler k = GenerateCoverLetter
    /\ forall o, exists q,
         react page_generating (Settle id o) = Some q
         /\ (currentStep (state q) = 2 \/ currentStep (state q) = 4).
Proof.
  apply (X4_the_spinner_always_has_a_call_to_end_it page_generating).
  - exists (to_upload_done ++ [ClickGenerate]). vm_compute. reflexivity.
  - reflexivity.
  - reflexivity.
Defined.

(** *** The cover letter *)

(** X5: on every reachable page, the cover letter sent with a PDF or
    save request is the [cover_letter] field of an earlier successful
    generation answer, unchanged; and in step 4 the stored cover letter
    is such a field. *)
Theorem X5_the_letter_sent_is_the_letter_received (p : Page) :
  reachable p ->
  (forall newer r older,
     log p = newer ++ Sent r :: older -> letter_forwarded r older)
  /\ (currentStep (state p) = 4 ->
      letter_received (log p) (coverLetter (state p))).
Proof.
  intros [es R].
  destruct (Letters_run es start p Letters_start R) as [L1 _ L3 _].
  split; [now apply letters_forwarded_split | exact L1].
Qed.

Lemma X5_witness :
  letter_forwarded (PostGeneratePdf (body_of (state page_export)))
    (tl (log page_downloading))
  /\ letter_received (log page_downloading)
       (coverLetter (state page_downloading)).
Proof.
  assert (R : reachable page_downloading).
  { exists (to_export ++ [ClickDownload]). vm_compute. reflexivity. }
  destruct (X5_the_letter_sent_is_the_letter_received page_downloading R)
    as [F S].
  split.
  - apply (F []). reflexivity.
  - apply S. reflexivity.
Defined.

(** X6: a generation call fulfilled with a body whose [cover_letter] is
    missing or is not a string still counts as a success: the success
    message is shown and the page enters step 4 with that value as the
    cover letter, a state whose preview cannot be rendered. *)
Theorem X6_a_letterless_answer_enters_an_unrenderable_step_4
  (p : Page) (id : nat) (k : Suspended) (data v : value) :
  mounted p = true ->
  assoc id (pending p) = Some k ->
  handler k = GenerateCoverLetter ->
  prop data "cover_letter" = Some v ->
  (forall s, v <> str s) ->
  exists q, react p (Settle id (Resolved data)) = Some q
    /\ currentStep (state q) = 4
    /\ coverLetter (state q) = v
    /\ In (ToastSuccess (str "Anschreiben erstellt!")) (log q)
    /\ preview (coverLetter (state q)) = None
    /\ renders (state q) = false.
Proof.
  intros Hm Hp Hk Hv Hs. page p. cbn in Hm, Hp. subst mt.
  unfold react. cbn. rewrite Hp. unfold settled. rewrite Hk.
  unfold generateCoverLetter_settled. rewrite Hv.
  eexists; split; [reflexivity |]. cbn.
  assert (N : preview v = None).
  { destruct v as [[| | | | s] | |]; try reflexivity. now elim (Hs s). }
  repeat split; try exact N.
  - now left.
  - unfold renders. cbn. now rewrite N.
Qed.

Lemma X6_witness :
  exists q, react page_generating (Settle 3 (Resolved letterless)) = Some q
    /\ currentStep (state q) = 4
    /\ coverLetter (state q) = undefined
    /\ In (ToastSuccess (str "Anschreiben erstellt!")) (log q)
    /\ preview (coverLetter (state q)) = None
    /\ renders (state q) = false.
Proof.
  eapply (X6_a_letterless_answer_enters_an_unrenderable_step_4
            page_generating 3);
    [reflexivity | cbv; reflexivity | reflexivity | reflexivity |].
  intros s. discriminate.
Defined.

Lemma split_not_empty sep s : split sep s <> [].
Proof.
  destruct s as [| c s]; cbn; [discriminate |].
  destruct (Ascii.eqb c sep); [discriminate |].
  destruct (split sep s); discriminate.
Qed.

(** The preview of step 4 shows the whole cover letter: the paragraphs
    [split] cuts a string into, joined again by the separator, are the
    string itself, there is at least one paragraph, and no paragraph
    contains the separator. *)
Lemma the_preview_loses_nothing (sep : ascii) (s : string) :
  String.concat (String sep EmptyString) (split sep s) = s
  /\ split sep s <> []
  /\ (forall line, In line (split sep s) -> occurs sep line = false)
  /\ preview (str s) = Some (split newline s).
Proof.
  split; [| split; [apply split_not_empty | split; [| reflexivity]]].
  - induction s as [| c s IH]; [reflexivity |].
    cbn [split]. destruct (Ascii.eqb c sep) eqn:E.
    + apply Ascii.eqb_eq in E. subst c.
      pose proof (split_not_empty sep s) as N.
      destruct (split sep s) as [| l ls]; [now elim N |].
      cbn in IH |- *. now rewrite IH.
    + pose proof (split_not_empty sep s) as N.
      destruct (split sep s) as [| l ls]; [now elim N |].
      destruct ls as [| l' ls]; cbn in IH |- *; now rewrite <- IH.
  - induction s as [| c s IH]; intros line HIn.
    + destruct HIn as [<- | []]. reflexivity.
    + cbn [split] in HIn. destruct (Ascii.eqb c sep) eqn:E.
      * destruct HIn as [<- | HIn]; [reflexivity | now apply IH].
      * pose proof (split_not_empty sep s) as N.
        destruct (split sep s) as [| l ls]; [now elim N |].
        destruct HIn as [<- | HIn]; [| apply IH; now right].
        cbn. rewrite E. apply IH. now left.
Qed.

(** *** Uploading *)

(** X7: a chosen file whose name ends in [.pdf], in any case, is taken:
    the handler stores it as the resume file, raises the loading flag
    and sends exactly one analysis request carrying that first file;
    further files of the selection are ignored, and the resume data of
    an earlier analysis stays stored meanwhile. *)
Theorem X7_a_pdf_is_uploaded
  (p : Page) (id : nat) (file : File) (others : list File) :
  mounted p = true ->
  ends_in_pdf (name file) ->
  let q := exec (handleFileUpload id (file :: others)) p in
  log q = Sent (PostAnalyzeResume file) :: log p
  /\ (exists k, pending q = (id, k) :: pending p
               /\ handler k = HandleFileUpload)
  /\ intervals q = (id, 10) :: intervals p
  /\ resumeFile (state q) = Some file
  /\ loading (state q) = true
  /\ resumeData (state q) = resumeData (state p)
  /\ currentStep (state q) = currentStep (state p).
Proof.
  intros Hm He. apply endsWith_pdf_complete in He.
  unfold handleFileUpload. rewrite He. page p. cbn in Hm. subst mt. cbn.
  repeat split. eexists. split; reflexivity.
Qed.

Lemma X7_witness :
  let q := exec (handleFileUpload 9 [GeneratorSpec.cv; GeneratorSpec.cv2])
             page_export in
  log q = Sent (PostAnalyzeResume GeneratorSpec.cv) :: log page_export
  /\ (exists k, pending q = (9%nat, k) :: pending page_export
               /\ handler k = HandleFileUpload)
  /\ intervals q = (9%nat, 10) :: intervals page_export
  /\ resumeFile (state q) = Some GeneratorSpec.cv
  /\ loading (state q) = true
  /\ resumeData (state q) = resumeData (state page_export)
  /\ currentStep (state q) = currentStep (state page_export).
Proof.
  apply (X7_a_pdf_is_uploaded page_export 9 GeneratorSpec.cv
           [GeneratorSpec.cv2]); [reflexivity |].
  exists "cv", "."%char, "P"%char, "D"%char, "F"%char.
  repeat split; auto.
Defined.

(** X8: when a resume analysis is rejected, the shown file is removed
    but the resume data of an earlier successful analysis is kept, so
    the advance action is enabled exactly when such data is stored;
    one error message is shown. *)
Theorem X8_a_failed_upload_keeps_the_earlier_analysis
  (p : Page) (id : nat) (k : Suspended) (body : value) :
  mounted p = true ->
  assoc id (pending p) = Some k ->
  handler k = HandleFileUpload ->
  exists q, react p (Settle id (Rejected body)) = Some q
    /\ resumeFile (state q) = None
    /\ resumeData (state q) = resumeData (state p)
    /\ generate_disabled (state q) = negb (truthy (resumeData (state p)))
    /\ currentStep (state q) = currentStep (state p)
    /\ log q = ToastError (or_else (opt_prop body "detail")
                                    (str "Fehler bei der PDF-Analyse"))
               :: Received (request k) (Rejected body) :: log p.
Proof.
  intros Hm Hp Hk. page p. cbn in Hm, Hp. subst mt.
  unfold react. cbn. rewrite Hp. unfold settled. rewrite Hk.
  eexists; split; [reflexivity |]. cbn. repeat split.
Qed.

Lemma X8_witness :
  exists k, assoc 3 (pending page_uploading_again) = Some k
    /\ exists q,
         react page_uploading_again (Settle 3 (Rejected undefined)) = Some q
    /\ resumeFile (state q) = None
    /\ resumeData (state q) = resumeData (state page_uploading_again)
    /\ generate_disabled (state q)
       = negb (truthy (resumeData (state page_uploading_again)))
    /\ currentStep (state q) = currentStep (state page_uploading_again)
    /\ log q = ToastError (or_else (opt_prop undefined "detail")
                                    (str "Fehler bei der PDF-Analyse"))
               :: Received (request k) (Rejected undefined)
               :: log page_uploading_again.
Proof.
  eexists. split; [cbv; reflexivity |].
  eapply (X8_a_failed_upload_keeps_the_earlier_analysis
            page_uploading_again 3);
    [reflexivity | cbv; reflexivity | reflexivity].
Defined.

(** *** Requests *)

(** X9: the generator sends requests only when the user acts: an
    answer of the backend or a timer tick never sends one (nothing is
    retried), and a user event sends at most one. *)
Theorem X9_only_the_user_causes_requests (p q : Page) (e : Event) :
  react p e = Some q ->
  requests (log q) = requests (log p)
  \/ (by_user e = true
      /\ exists r, requests (log q) = r :: requests (log p)).
Proof.
  intros H. page p.
  transitions e H mt ltac:(cbn; eauto).
Qed.

Lemma X9_witness :
  requests
    (log (page_after (to_upload_done ++ [ClickGenerate;
                                          Settle 3 (Rejected undefined)])))
  = requests (log page_generating)
  \/ (by_user (Settle 3 (Rejected undefined)) = true
      /\ exists r,
           requests
             (log (page_after (to_upload_done
                               ++ [ClickGenerate;
                                   Settle 3 (Rejected undefined)])))
           = r :: requests (log page_generating)).
Proof.
  apply (X9_only_the_user_causes_requests page_generating).
  vm_compute. reflexivity.
Defined.

End GeneratorMore.

(** ** More on the dashboard *)

Module DashboardMore.
Import Dashboard DashboardSpec DashboardView DashboardShape.

Ltac page p := destruct p as [[apps ld del sel] mt pend lg fr].

Ltac gate H :=
  match type of H with
  | context [if ?b then Some _ else None] =>
      let GD := fresh "GD" in
      destruct b eqn:GD; cbn in H; try discriminate H
  | context [if ?b then None else Some _] =>
      let GD := fresh "GD" in
      destruct b eqn:GD; cbn in H; try discriminate H
  end.

Ltac card H mt apps :=
  destruct mt; [| discriminate H];
  match type of H with
  | context [nth_error apps ?i] =>
      let N := fresh "N" in
      destruct (nth_error apps i) as [app |] eqn:N; [| discriminate H];
      gate H; injection H as <-; apply nth_error_In in N
  end.

(** The transitions of the dashboard; [leaf] is run on each. *)
Ltac transitions e H mt apps sel leaf :=
  destruct e as [index | index | index | | | | | | | | sid o];
  unfold react in H; cbn in H;
  [ card H mt apps; leaf
  | card H mt apps; leaf
  | card H mt apps; leaf
  | destruct mt; [| discriminate H]; gate H; injection H as <-; leaf
  | destruct mt; [| discriminate H]; gate H; injection H as <-;
    unfold deleteApplication;
    match goal with
    | GD : dialog_open _ = true |- _ =>
        unfold dialog_open in GD; cbn in GD; cbn; rewrite GD
    end; leaf
  | destruct mt; [| discriminate H]; gate H; injection H as <-; leaf
  | destruct mt; [| discriminate H];
    destruct sel as [app |]; [| discriminate H]; injection H as <-; leaf
  | destruct mt; [| discriminate H]; injection H as <-; leaf
  | destruct mt; [| discriminate H]; injection H as <-; leaf
  | destruct mt; [| discriminate H];
    destruct apps; [| discriminate H]; gate H; injection H as <-; leaf
  | match type of H with
    | context [assoc ?i ?l] =>
        let A := fresh "A" in
        let AI := fresh "AI" in
        destruct (assoc i l) as [k |] eqn:A; [| discriminate H];
        pose proof (assoc_In _ _ _ A) as AI; destruct k as [h c r]
    end;
    unfold settled in H; cbn in H;
    match type of H with
    | context [match ?x with FetchApplications => _ | _ => _ end] =>
        destruct x
    end;
    destruct o as [data | data | body]; cbn in H; try discriminate H;
    injection H as <-; destruct mt; leaf ].

Lemma listed_older e l app : listed l app -> listed (e :: l) app.
Proof. intros (data & H & H'). exists data. split; [now right | exact H']. Qed.

Create HintDb board.
#[local] Hint Resolve listed_older : board.

Lemma Targets_start : Targets start.
Proof. split; cbn; [now left | tauto]. Qed.

Ltac targets_leaf :=
  split; cbn;
  [ first
      [ solve [left; reflexivity]
      | solve [right; eauto 8 with board]
      | match goal with
        | T : _ \/ _ |- _ =>
            destruct T as [T | (? & ? & ?)];
            [left; assumption | right; eauto 8 with board]
        end ]
  | repeat split; eauto 8 with board;
    match goal with
    | T : _ \/ _, GD : truthy_prim _ = true |- _ =>
        destruct T as [T | T]; [rewrite T in GD; discriminate GD | exact T]
    end ].

Lemma Targets_react p e q :
  Inv p -> Targets p -> react p e = Some q -> Targets q.
Proof.
  intros HI HT H. page p. destruct HI as [I1 _ _ _].
  destruct HT as [T1 T2]. cbn in I1, T1, T2.
  transitions e H mt apps sel targets_leaf.
Qed.

Lemma Targets_run es :
  forall p q, Inv p -> Targets p -> run p es = Some q -> Targets q.
Proof.
  induction es as [| e es IH]; cbn; intros p q HI HT H.
  - now injection H as <-.
  - destruct (react p e) as [p' |] eqn:R; [| discriminate H].
    eapply IH; [| | exact H].
    + eapply DashboardProofs.dash_Inv_react; eassumption.
    + eapply Targets_react; eassumption.
Qed.

Lemma deletes_ok_split l :
  deletes_ok l ->
  forall newer r older, l = newer ++ Sent r :: older -> delete_ok r older.
Proof.
  intros V newer. revert l V.
  induction newer as [| e newer IH]; intros l V r older ->.
  - cbn in V. tauto.
  - cbn in V. eapply IH; [| reflexivity].
    destruct e; cbn in V; tauto.
Qed.

(** X10: on every reachable dashboard, each delete call names an id
    that is truthy and is the id of a record the backend listed before:
    the page never asks to delete anything else. *)
Theorem X10_deletes_name_listed_records (p : Page) :
  reachable p ->
  forall newer i older,
    log p = newer ++ Sent (DeleteApplicationById i) :: older ->
    truthy_prim i = true
    /\ exists app, listed older app /\ id app = i.
Proof.
  intros [es R] newer i older E.
  destruct (Targets_run es start p DashboardProofs.dash_Inv_start
              Targets_start R) as [_ T].
  exact (deletes_ok_split _ T _ _ _ E).
Qed.

Lemma X10_witness :
  truthy_prim (PNum 1) = true
  /\ exists app, listed (tl (log page_deleting)) app /\ id app = PNum 1.
Proof.
  apply (X10_deletes_name_listed_records page_deleting) with (newer := []).
  - exists to_deleting. vm_compute. reflexivity.
  - reflexivity.
Defined.

(** X11: on every reachable dashboard, the records on display and the
    record in the preview are records the backend listed: the page
    never shows a record of its own making. *)
Theorem X11_only_listed_records_are_shown (p : Page) :
  reachable p ->
  (forall app, In app (applications (state p)) -> listed (log p) app)
  /\ (forall app, selectedApp (state p) = Some app -> listed (log p) app).
Proof.
  intros [es R].
  destruct (DashboardProofs.dash_Inv_run es start p
              DashboardProofs.dash_Inv_start R) as [I1 I2 _ _].
  split; [exact I1 | exact I2].
Qed.

Lemma X11_witness :
  (forall app, In app (applications (state page_deleting)) ->
     listed (log page_deleting) app)
  /\ (forall app, selectedApp (state page_deleting) = Some app ->
        listed (log page_deleting) app).
Proof.
  apply (X11_only_listed_records_are_shown page_deleting).
  exists to_deleting. vm_compute. reflexivity.
Defined.

(** *** The list call *)

Lemma fetched_once_start : fetched_once (log start).
Proof. exists []. split; [reflexivity | intros []]. Qed.

Ltac prepend newer E N :=
  first
    [ eexists (_ :: _ :: _ :: newer); split;
      [cbn; rewrite E; reflexivity | cbn; intuition discriminate]
    | eexists (_ :: _ :: newer); split;
      [cbn; rewrite E; reflexivity | cbn; intuition discriminate]
    | eexists (_ :: newer); split;
      [cbn; rewrite E; reflexivity | cbn; intuition discriminate]
    | exists newer; split; [exact E | exact N] ].

Lemma fetched_once_react p e q :
  fetched_once (log p) -> react p e = Some q -> fetched_once (log q).
Proof.
  intros (newer & E & N) H. page p. cbn in E.
  transitions e H mt apps sel ltac:(cbn; prepend newer E N).
Qed.

Lemma fetched_once_run es :
  forall p q, fetched_once (log p) -> run p es = Some q ->
    fetched_once (log q).
Proof.
  induction es as [| e es IH]; cbn; intros p q HI H.
  - now injection H as <-.
  - destruct (react p e) as [p' |] eqn:R; [| discriminate H].
    eapply IH; [| exact H]. eapply fetched_once_react; eassumption.
Qed.

Lemma Loaded_start : Loaded start.
Proof. intros _. left. split; reflexivity. Qed.

Ltac loaded_start :=
  try match goal with
      | HS : _ = initial |- _ => inversion HS; subst; clear HS
      end;
  cbn in *; try discriminate;
  repeat match goal with
  | A : (if Nat.eqb ?a ?b then _ else _) = Some _ |- _ =>
      destruct (Nat.eqb a b) eqn:?; inversion A; subst; clear A
  end;
  try (right; split; [reflexivity |]; cbn;
       repeat match goal with
       | E : Nat.eqb _ _ = true |- _ => rewrite E
       end; cbn; intros ? ? []);
  try match goal with
  | GD : grid_shown _ = true |- _ => cbn in GD; discriminate GD
  end.

Ltac loaded_later :=
  try subst; right; split;
  [ first [reflexivity | assumption]
  | intros ? ? HIn;
    try apply drop_In in HIn;
    try (destruct HIn as [HIn | HIn];
         [inversion HIn; subst; cbn; discriminate |]);
    eauto ].

Ltac loaded_leaf :=
  cbn; intros HM;
  first
    [ discriminate HM
    | match goal with
      | HL : true = true -> _ |- _ =>
          destruct (HL eq_refl) as [[? ?] | [? ?]]; clear HL;
          [loaded_start | loaded_later]
      end ].

Lemma Loaded_react p e q : Loaded p -> react p e = Some q -> Loaded q.
Proof.
  intros HL H. page p. unfold Loaded in *. cbn in HL |- *.
  transitions e H mt apps sel loaded_leaf.
Qed.

Lemma Loaded_run es :
  forall p q, Loaded p -> run p es = Some q -> Loaded q.
Proof.
  induction es as [| e es IH]; cbn; intros p q HI H.
  - now injection H as <-.
  - destruct (react p e) as [p' |] eqn:R; [| discriminate H].
    eapply IH; [| exact H]. eapply Loaded_react; eassumption.
Qed.

(** X12: the list of applications is requested once, when the page
    mounts, and never again: on every reachable dashboard the list call
    is the oldest entry of the log and no later request is a list call,
    whatever was answered and whatever was deleted since. *)
Theorem X12_the_list_is_fetched_once (p : Page) :
  reachable p ->
  exists newer,
    log p = newer ++ [Sent GetApplications]
    /\ ~ In GetApplications (GeneratorShape.requests newer).
Proof.
  intros [es R]. exact (fetched_once_run es start p fetched_once_start R).
Qed.

Lemma X12_witness :
  exists newer,
    log page_deleting = newer ++ [Sent GetApplications]
    /\ ~ In GetApplications (GeneratorShape.requests newer).
Proof.
  apply (X12_the_list_is_fetched_once page_deleting).
  exists to_deleting. vm_compute. reflexivity.
Defined.

(** X13: when the list call is rejected, the mounted page shows one
    error message and then the empty state, with no record and the
    create-first button at hand, exactly as for a user who has saved
    nothing. *)
Theorem X13_a_failed_list_call_shows_the_empty_state
  (p : Page) (n : nat) (k : Suspended) (body : value) :
  reachable p ->
  mounted p = true ->
  assoc n (pending p) = Some k ->
  handler k = FetchApplications ->
  exists q, react p (Settle n (Rejected body)) = Some q
    /\ applications (state q) = []
    /\ loading (state q) = false
    /\ log q = ToastError (str "Fehler beim Laden der Bewerbungen")
               :: Received GetApplications (Rejected body) :: log p
    /\ exists r, react q ClickCreateFirst = Some r
         /\ log r = Navigated "/generator" :: log q.
Proof.
  intros [es R] Hm Hp Hk.
  destruct (Loaded_run es start p Loaded_start R Hm) as [[HS HP] | [_ HN]].
  - page p. cbn in Hm, Hp, HS, HP. subst mt pend. inversion HS. subst.
    cbn in Hp. destruct (Nat.eqb n 0) eqn:E; [| discriminate Hp].
    injection Hp as <-. unfold react. cbn. rewrite E. cbn.
    eexists; split; [reflexivity |]. repeat split.
    eexists; split; reflexivity.
  - apply assoc_In in Hp. now elim (HN _ _ Hp).
Qed.

Lemma X13_witness :
  exists q, react start (Settle 0 (Rejected refusal)) = Some q
    /\ applications (state q) = []
    /\ loading (state q) = false
    /\ log q = ToastError (str "Fehler beim Laden der Bewerbungen")
               :: Received GetApplications (Rejected refusal) :: log start
    /\ exists r, react q ClickCreateFirst = Some r
         /\ log r = Navigated "/generator" :: log q.
Proof.
  eapply (X13_a_failed_list_call_shows_the_empty_state start 0).
  - exists []. reflexivity.
  - reflexivity.
  - cbv. reflexivity.
  - reflexivity.
Defined.

(** *** Deleting *)

(** X14: a record whose id is falsy (0, the empty string, null) cannot
    be deleted: its delete button stores the id, but the dialog does
    not open for it, the confirm button cannot be used, and the handler
    itself, if it ran, would return without a request. *)
Theorem X14_a_record_with_a_falsy_id_cannot_be_deleted
  (p : Page) (index : nat) (app : Application) :
  mounted p = true ->
  grid_shown (state p) = true ->
  nth_error (applications (state p)) index = Some app ->
  truthy_prim (id app) = false ->
  exists q, react p (ClickTrash index) = Some q
    /\ deleteId (state q) = id app
    /\ dialog_open (state q) = false
    /\ react q ClickConfirmDelete = None
    /\ (forall n, deleteApplication n (state q) = [])
    /\ log q = log p.
Proof.
  intros Hm Hg Hn Hf. page p. cbn in Hm, Hg, Hn. subst mt.
  unfold react. cbn. rewrite Hn, Hg.
  eexists; split; [reflexivity |]. cbn.
  unfold dialog_open, deleteApplication. cbn. rewrite Hf. cbn.
  repeat split.
Qed.

Lemma X14_witness :
  exists q, react page_unnumbered (ClickTrash 0) = Some q
    /\ deleteId (state q) = id unnumbered
    /\ dialog_open (state q) = false
    /\ react q ClickConfirmDelete = None
    /\ (forall n, deleteApplication n (state q) = [])
    /\ log q = log page_unnumbered.
Proof.
  apply (X14_a_record_with_a_falsy_id_cannot_be_deleted
           page_unnumbered 0 unnumbered); reflexivity.
Defined.

(** X15: a confirmed deletion that is answered before anything else
    happens sends one delete request for the pending id and, on
    success, takes exactly the record with that id out of the list,
    keeping all others in their order, shows one success message and
    closes the dialog; ids are pairwise distinct here. *)
Theorem X15_confirm_then_success_removes_the_record
  (p : Page) (a : Application) (data : value) :
  mounted p = true ->
  dialog_open (state p) = true ->
  deleteId (state p) = id a ->
  In a (applications (state p)) ->
  NoDup (map id (applications (state p))) ->
  exists q r before after,
    react p ClickConfirmDelete = Some q
    /\ log q = Sent (DeleteApplicationById (id a)) :: log p
    /\ state q = state p
    /\ react q (Settle (fresh p) (Resolved data)) = Some r
    /\ applications (state p) = before ++ a :: after
    /\ applications (state r) = before ++ after
    /\ deleteId (state r) = PNull
    /\ log r = ToastSuccess (str "Bewerbung gelöscht")
               :: Received (DeleteApplicationById (id a)) (Resolved data)
               :: log q.
Proof.
  intros Hm Hd Hi HIn ND.
  destruct (DashboardProofs.filter_removes_the_record _ _ ND HIn)
    as (before & after & E & F).
  rewrite (DashboardProofs.confirm_sends_one_delete p Hm Hd).
  page p. cbn in Hm, Hd, Hi, HIn, E, F. subst mt del.
  eexists _, _, before, after.
  split; [reflexivity |]. split; [reflexivity |]. split; [reflexivity |].
  unfold react. cbn. rewrite Nat.eqb_refl. cbn.
  split; [reflexivity |]. split; [exact E |]. split; [exact F |].
  split; reflexivity.
Qed.

Lemma X15_witness :
  exists q r before after,
    react page_dialog ClickConfirmDelete = Some q
    /\ log q = Sent (DeleteApplicationById (id (record 1 "ACME")))
               :: log page_dialog
    /\ state q = state page_dialog
    /\ react q (Settle (fresh page_dialog) (Resolved null)) = Some r
    /\ applications (state page_dialog) = before ++ record 1 "ACME" :: after
    /\ applications (state r) = before ++ after
    /\ deleteId (state r) = PNull
    /\ log r = ToastSuccess (str "Bewerbung gelöscht")
               :: Received (DeleteApplicationById (id (record 1 "ACME")))
                    (Resolved null)
               :: log q.
Proof.
  apply (X15_confirm_then_success_removes_the_record
           page_dialog (record 1 "ACME") null).
  - reflexivity.
  - reflexivity.
  - reflexivity.
  - cbn. now left.
  - cbn. repeat constructor; cbn; intuition discriminate.
Defined.

(** *** Cards *)






End DashboardMore.

(** ** The landing page *)

Module LandingMore.
Import Landing LandingShape.

Ltac page p := destruct p as [[sa am md ld fd] au mt pend lg fr].

Ltac gate H :=
  match type of H with
  | context [if ?b then Some _ else None] =>
      let GD := fresh "GD" in
      destruct b eqn:GD; cbn in H; try discriminate H
  | context [if ?b then None else Some _] =>
      let GD := fresh "GD" in
      destruct b eqn:GD; cbn in H; try discriminate H
  end.

(** The transitions of the landing page; [leaf] is run on each. *)
Ltac transitions e H mt au leaf :=
  destruct e as [| | | | | | text | text | text | | | | b | sid o];
  unfold react in H; cbn in H;
  [ destruct mt; [| discriminate H]; gate H; injection H as <-; leaf
  | destruct mt; [| discriminate H]; gate H; injection H as <-; leaf
  | destruct mt; [| discriminate H]; gate H; injection H as <-; leaf
  | destruct mt; [| discriminate H]; gate H; injection H as <-; leaf
  | destruct mt; [| discriminate H]; injection H as <-;
    unfold handleGetStarted; destruct au; leaf
  | destruct mt; [| discriminate H]; injection H as <-; leaf
  | destruct mt; [| discriminate H]; gate H; injection H as <-; leaf
  | destruct mt; [| discriminate H]; gate H; injection H as <-; leaf
  | destruct mt; [| discriminate H]; gate H; injection H as <-; leaf
  | destruct mt; [| discriminate H]; gate H; injection H as <-; leaf
  | destruct mt; [| discriminate H]; gate H; injection H as <-; leaf
  | destruct mt; [| discriminate H]; gate H; injection H as <-; leaf
  | injection H as <-; leaf
  | match type of H with
    | context [assoc ?i ?l] =>
        let A := fresh "A" in
        destruct (assoc i l) as [k |] eqn:A; [| discriminate H];
        injection H as <-; destruct k as [c r]
    end;
    unfold handleSubmit_settled; cbn [closure call];
    destruct o as [| body]; destruct mt; leaf ].

(** *** The mode of the modal *)

Lemma mode_react p e q :
  react p e = Some q ->
  mode (state q)
  = match e with
    | ClickToggleMode => flip (mode (state p))
    | _ => mode (state p)
    end.
Proof.
  intros H. page p. transitions e H mt au ltac:(reflexivity).
Qed.

Lemma mode_after_flip n : flip (mode_after n) = mode_after (S n).
Proof.
  unfold mode_after. rewrite Nat.even_succ, <- Nat.negb_even.
  destruct (Nat.even n); reflexivity.
Qed.

Lemma mode_run es :
  forall p q n, run p es = Some q -> mode (state p) = mode_after n ->
    mode (state q) = mode_after (n + toggles es).
Proof.
  induction es as [| e es IH]; cbn; intros p q n H M.
  - injection H as <-. now rewrite Nat.add_0_r.
  - destruct (react p e) as [p' |] eqn:R; [| discriminate H].
    pose proof (mode_react _ _ _ R) as M'.
    destruct e;
      try (apply (IH p' q n H); now rewrite M').
    rewrite Nat.add_succ_r, <- Nat.add_succ_l.
    apply (IH p' q (S n) H). now rewrite M', M, mode_after_flip.
Qed.

(** X17: the mode of the modal depends only on how often its toggle
    was used since the page mounted: it is [login] after an even number
    of uses and [register] after an odd number, whichever button opened
    the modal and whatever [authMode] the page has set. *)
Theorem X17_only_the_toggle_changes_the_mode
  (authenticated : bool) (es : list Event) (p : Page) :
  run (start authenticated) es = Some p ->
  mode (state p) = mode_after (toggles es).
Proof.
  intros H. exact (mode_run es _ _ 0%nat H eq_refl).
Qed.

Lemma X17_witness :
  mode (state page_submitting) = mode_after (toggles register_then_submit)
  /\ authMode (state page_submitting) = "register"
  /\ mode (state page_submitting) = "login"
  /\ log page_submitting = [Called (Login "jane@example.org" "secret1")].
Proof.
  split; [| repeat split].
  apply (X17_only_the_toggle_changes_the_mode false register_then_submit).
  vm_compute. reflexivity.
Defined.

(** *** Submitting *)

Lemma Busy_start authenticated : Busy (start authenticated).
Proof.
  split; cbn; [lia |]. intros _. split; [discriminate | intros N; now elim N].
Qed.

Lemma single_drop {A} (i : nat) (a : A) (l : list (nat * A)) :
  (List.length l <= 1)%nat -> assoc i l = Some a -> drop i l = [].
Proof.
  destruct l as [| [n b] [| x l]]; cbn; intros L H; try discriminate H;
    [| lia].
  destruct (Nat.eqb i n); [reflexivity | discriminate H].
Qed.

Lemma Busy_react p e q : Busy p -> react p e = Some q -> Busy q.
Proof.
  intros HB H. page p. destruct HB as [B1 B2]. cbn in B1, B2.
  transitions e H mt au idtac.
  all: try solve [split; cbn; [exact B1 | first [exact B2 | discriminate]]].
  all: try solve [split; cbn;
                  [ pose proof (drop_length sid pend); lia | discriminate ]].
  - (* Submit: the flag is down, so nothing is outstanding *)
    apply andb_true_iff in GD as [_ GD]. apply negb_true_iff in GD.
    subst ld. destruct (B2 eq_refl) as [_ B3].
    assert (E : pend = [])
      by (destruct pend; [reflexivity | discriminate (B3 ltac:(discriminate))]).
    subst pend. split; cbn; [lia |].
    intros _. split; [discriminate | reflexivity].
  - (* a rejected call: it was the only one *)
    cbn. rewrite (single_drop _ _ _ B1 A). split; cbn; [lia |].
    intros _. split; [discriminate | intros N; now elim N].
Qed.

Lemma Busy_run es : forall p q, Busy p -> run p es = Some q -> Busy q.
Proof.
  induction es as [| e es IH]; cbn; intros p q HI H.
  - now injection H as <-.
  - destruct (react p e) as [p' |] eqn:R; [| discriminate H].
    eapply IH; [| exact H]. eapply Busy_react; eassumption.
Qed.

(** X18: the modal never has two calls outstanding, and while the page
    is mounted its loading flag is set exactly when a call is
    outstanding: a second submit is impossible until the first one is
    answered. *)
Theorem X18_one_submit_at_a_time (p : Page) :
  reachable p ->
  (List.length (pending p) <= 1)%nat
  /\ (mounted p = true ->
      (loading (state p) = true <-> pending p <> [])
      /\ (pending p <> [] -> react p Submit = None)).
Proof.
  intros (authenticated & es & R).
  destruct (Busy_run es _ p (Busy_start authenticated) R) as [B1 B2].
  split; [exact B1 |]. intros Hm. split; [exact (B2 Hm) |].
  intros N. apply (B2 Hm) in N. page p. cbn in Hm, N. subst mt ld.
  unfold react. cbn. now rewrite andb_false_r.
Qed.

Lemma X18_witness :
  (List.length (pending page_submitting) <= 1)%nat
  /\ (loading (state page_submitting) = true
      <-> pending page_submitting <> [])
  /\ react page_submitting Submit = None.
Proof.
  assert (R : reachable page_submitting).
  { exists false, register_then_submit. vm_compute. reflexivity. }
  destruct (X18_one_submit_at_a_time page_submitting R) as [L M].
  destruct (M eq_refl) as [F S].
  split; [exact L |]. split; [exact F |]. apply S. discriminate.
Defined.

(** X19: a rejected login or registration leaves the modal as it was:
    open or closed as before, in the same mode, with the typed data
    still in the form; the loading flag is cleared and one message is
    shown, the [detail] of the response body when it is truthy, else
    the generic one.  Nothing is navigated. *)
Theorem X19_a_rejected_submit_keeps_the_form
  (p : Page) (id : nat) (k : Suspended) (body : value) :
  mounted p = true ->
  assoc id (pending p) = Some k ->
  exists q, react p (Settle id (Rejected body)) = Some q
    /\ formData (state q) = formData (state p)
    /\ mode (state q) = mode (state p)
    /\ showAuth (state q) = showAuth (state p)
    /\ loading (state q) = false
    /\ mounted q = true
    /\ log q = ToastError (or_else (opt_prop body "detail")
                                    (str "Ein Fehler ist aufgetreten"))
               :: Answered (call k) (Rejected body) :: log p.
Proof.
  intros Hm Hp. page p. cbn in Hm, Hp. subst mt.
  unfold react. cbn. rewrite Hp.
  eexists; split; [reflexivity |]. cbn. repeat split.
Qed.

Lemma X19_witness :
  exists k, assoc 3 (pending page_submitting) = Some k
    /\ exists q,
         react page_submitting (Settle 3 (Rejected undefined)) = Some q
    /\ formData (state q) = formData (state page_submitting)
    /\ mode (state q) = mode (state page_submitting)
    /\ showAuth (state q) = showAuth (state page_submitting)
    /\ loading (state q) = false
    /\ mounted q = true
    /\ log q = ToastError (or_else (opt_prop undefined "detail")
                                    (str "Ein Fehler ist aufgetreten"))
               :: Answered (call k) (Rejected undefined)
               :: log page_submitting.
Proof.
  eexists. split; [cbv; reflexivity |].
  eapply (X19_a_rejected_submit_keeps_the_form page_submitting 3);
    [reflexivity | cbv; reflexivity].
Defined.

(** X20: the landing page navigates only for an authenticated visitor
    or on the success of a login or registration call, at most once per
    event, and then to the generator or the dashboard. *)
Theorem X20_navigation_needs_authentication (p q : Page) (e : Event) :
  react p e = Some q ->
  navigations (log q) = navigations (log p)
  \/ (exists path,
        navigations (log q) = path :: navigations (log p)
        /\ (path = "/generator" \/ path = "/dashboard")
        /\ (isAuthenticated p = true \/ exists id, e = Settle id Fulfilled)).
Proof.
  intros H. page p.
  transitions e H mt au
    ltac:(cbn; first [left; reflexivity | right; eexists; eauto 8]).
Qed.

Lemma X20_witness :
  navigations
    (log (page_after false (register_then_submit ++ [Settle 3 Fulfilled])))
  = navigations (log page_submitting)
  \/ (exists path,
        navigations
          (log (page_after false
                  (register_then_submit ++ [Settle 3 Fulfilled])))
        = path :: navigations (log page_submitting)
        /\ (path = "/generator" \/ path = "/dashboard")
        /\ (isAuthenticated page_submitting = true
            \/ exists id, Settle 3 Fulfilled = Settle id Fulfilled)).
Proof.
  apply (X20_navigation_needs_authentication page_submitting).
  vm_compute. reflexivity.
Defined.

End LandingMore.
